(** * Live temperature dashboard (docs/app.py): history buffer and sampling pipeline

    A shallow embedding of [docs/app.py]: the bounded deque of readings held
    by [reactive_value_wrapper], the reactive calculation
    [reactive_calc_combined] that generates one reading per recomputation,
    and the five render functions that consume its result.

    Conventions of the embedding.
    - A Python float is an exact rational ([Finite q]) or [NaN]; the
      program's own float operations ([uniform], [round], [<], [*], [+]) are
      the exact ones on rationals.
    - A Python dict is an association list in insertion order.
    - The random draws and the clock are inputs of each recomputation
      ([Draw]).
    - Objects that the program shares by reference (the one deque, the
      DataFrames) live in a [Store]; a returned tuple holds references. *)

From Stdlib Require Import ZArith QArith Qround Qabs Lia Lqa List String Ascii Bool.
From stdpp Require Import base list.
Import ListNotations.

Local Open Scope string_scope.
Local Open Scope nat_scope.
Local Open Scope list_scope.

(** ** Floats *)

Inductive float : Type :=
| Finite (q : Q)
| NaN.

Definition Qltb (x y : Q) : bool := negb (Qle_bool y x).

(** Python's [a < b] on floats: false as soon as one side is NaN. *)
Definition float_lt (a b : float) : bool :=
  match a, b with
  | Finite x, Finite y => Qltb x y
  | _, _ => false
  end.

Definition float_mul (a b : float) : float :=
  match a, b with
  | Finite x, Finite y => Finite (x * y)%Q
  | _, _ => NaN
  end.

Definition float_add (a b : float) : float :=
  match a, b with
  | Finite x, Finite y => Finite (x + y)%Q
  | _, _ => NaN
  end.

Definition float_of_int (n : Z) : float := Finite (inject_Z n).

(** Round half to even, to an integer. *)
Definition round_half_even (x : Q) : Z :=
  let f := Qfloor x in
  match ((x - inject_Z f) ?= (1 # 2))%Q with
  | Lt => f
  | Gt => (f + 1)%Z
  | Eq => if Z.even f then f else (f + 1)%Z
  end.

(** [round(x, ndigits)]: the multiple of [10^-ndigits] nearest to [x]. *)
Definition py_round (x : Q) (ndigits : nat) : Q :=
  let scale := Z.pow 10 (Z.of_nat ndigits) in
  Qmake (round_half_even (x * inject_Z scale)%Q) (Z.to_pos scale).

(** [random.uniform(a, b)] is [a + (b - a) * random()], where [random()]
    is the draw [u] in [0, 1). *)
Definition uniform (a b u : Q) : Q := (a + (b - a) * u)%Q.

(** ** Decimal text *)

Definition digit_char (n : Z) : ascii :=
  ascii_of_nat (48 + Z.to_nat (n mod 10)).

Fixpoint decimal_digits (fuel : nat) (n : Z) (acc : string) : string :=
  match fuel with
  | O => acc
  | S fuel' =>
      let acc' := String (digit_char n) acc in
      if (n / 10 =? 0)%Z then acc' else decimal_digits fuel' (n / 10)%Z acc'
  end.

(** [str(n)] for a natural number [n] (at most 40 digits). *)
Definition str_nat (n : Z) : string := decimal_digits 40 n "".

(** Zero-padded field of a fixed width, as [%m], [%d], [%H] ... print. *)
Fixpoint padded (width : nat) (n : Z) (acc : string) : string :=
  match width with
  | O => acc
  | S w => padded w (n / 10)%Z (String (digit_char n) acc)
  end.

(** Digits after the decimal point of [r] (with [0 <= r < 1]): the
    expansion stops when it terminates, and after [fuel] digits at most. *)
Fixpoint fraction_digits (fuel : nat) (r : Q) : string :=
  match fuel with
  | O => ""
  | S fuel' =>
      let t := (r * 10)%Q in
      let d := Qfloor t in
      let rest := (t - inject_Z d)%Q in
      String (digit_char d)
             (if Qeq_bool rest 0 then "" else fraction_digits fuel' rest)
  end.

(** [repr] of a float, which is also what an f-string prints: sign,
    integer part, a point and at least one fractional digit.  On a float
    that [round(_, 1)] returned this is its one-decimal text. *)
Definition repr_float (x : float) : string :=
  match x with
  | NaN => "nan"
  | Finite q =>
      let a := Qabs q in
      let ip := Qfloor a in
      ((if Qltb q 0 then "-" else "")
         ++ str_nat ip ++ "." ++ fraction_digits 17 (a - inject_Z ip)%Q)%string
  end.

(** ** The clock *)

Record datetime : Type := {
  year : Z; month : Z; day : Z;
  hour : Z; minute : Z; second : Z;
  microsecond : Z
}.

(** [t.strftime("%Y-%m-%d %H:%M:%S")]. *)
Definition strftime (t : datetime) : string :=
  (padded 4 (year t) "" ++ "-" ++ padded 2 (month t) "" ++ "-"
     ++ padded 2 (day t) "" ++ " " ++ padded 2 (hour t) "" ++ ":"
     ++ padded 2 (minute t) "" ++ ":" ++ padded 2 (second t) "")%string.

(** ** Values and dicts *)

Inductive value : Type :=
| VFloat (x : float)
| VStr (s : string)
| VTime (t : datetime).

(** A dict with string keys, in insertion order. *)
Definition dict : Type := list (string * value).

(** [d[k]]; [None] stands for [KeyError]. *)
Fixpoint dict_get (d : dict) (k : string) : option value :=
  match d with
  | [] => None
  | (k', v) :: d' => if String.eqb k' k then Some v else dict_get d' k
  end.

(** ** The deque *)

Definition DEQUE_SIZE : nat := 5.
Definition UPDATE_INTERVAL_SECS : nat := 3.

(** [deque(maxlen=m).append(x)]: the item goes to the right end, and an
    item is dropped from the left end when the length exceeds [m]. *)
Definition deque_append {A : Type} (maxlen : nat) (items : list A) (x : A)
  : list A :=
  let items' := items ++ [x] in
  if maxlen <? length items' then tl items' else items'.

(** ** Exceptions *)

Inductive exn : Type :=
| KeyError (key : string)
| TypeError
| ValueError
| UnboundLocalError (name : string).

Inductive result (A : Type) : Type :=
| Ok (a : A)
| Raise (e : exn).
Arguments Ok {A} a.
Arguments Raise {A} e.

(** Sequencing of computations that may raise, with stdpp's [x ← r; k]. *)
#[global] Instance result_ret : MRet result := fun A a => Ok a.
#[global] Instance result_bind : MBind result :=
  fun A B k r => match r with Ok a => k a | Raise e => Raise e end.

(** [d[k]] as an expression that may raise. *)
Definition subscript (d : dict) (k : string) : result value :=
  match dict_get d k with
  | Some v => Ok v
  | None => Raise (KeyError k)
  end.

(** ** DataFrames *)

(** A cell of a frame; [None] is a missing entry (pandas shows NaN). *)
Definition cell : Type := option value.

Record DataFrame : Type := {
  nrows : nat;
  columns : list (string * list cell)
}.

Definition add_key (acc : list string) (k : string) : list string :=
  if existsb (String.eqb k) acc then acc else acc ++ [k].

(** Column labels of a frame built from records: every key, in the order
    of its first appearance. *)
Definition column_names (rows : list dict) : list string :=
  fold_left (fun acc d => fold_left add_key (map fst d) acc) rows [].

(** [pd.DataFrame(rows)] for a sequence of dicts: one row per dict, one
    column per key; a key a dict lacks gives a missing cell. *)
Definition make_DataFrame (rows : list dict) : DataFrame :=
  {| nrows := length rows;
     columns :=
       map (fun k => (k, map (fun d => dict_get d k) rows))
           (column_names rows) |}.

(** [df.empty]: some axis has length 0. *)
Definition df_empty (df : DataFrame) : bool :=
  (nrows df =? 0) || (length (columns df) =? 0).

Fixpoint find_column (cols : list (string * list cell)) (k : string)
  : option (list cell) :=
  match cols with
  | [] => None
  | (k', c) :: cols' => if String.eqb k' k then Some c else find_column cols' k
  end.

(** [df[k]]. *)
Definition get_column (df : DataFrame) (k : string) : result (list cell) :=
  match find_column (columns df) k with
  | Some c => Ok c
  | None => Raise (KeyError k)
  end.

Fixpoint replace_column (cols : list (string * list cell)) (k : string)
         (c : list cell) : list (string * list cell) :=
  match cols with
  | [] => [(k, c)]
  | (k', c') :: cols' =>
      if String.eqb k' k then (k, c) :: cols'
      else (k', c') :: replace_column cols' k c
  end.

(** [df[k] = c]: the column is overwritten in place, or added as the last
    column; a column of the wrong length is refused. *)
Definition set_column (df : DataFrame) (k : string) (c : list cell)
  : result DataFrame :=
  if length c =? nrows df
  then Ok {| nrows := nrows df; columns := replace_column (columns df) k c |}
  else Raise ValueError.

(** The cells of row [i], column by column. *)
Definition frame_row (df : DataFrame) (i : nat) : list (string * option cell) :=
  map (fun kc => (fst kc, snd kc !! i)) (columns df).

(** ** The shared objects *)

(** The program creates one deque, at import time, and never replaces it:
    [reactive_value_wrapper.get()] always returns that object. *)
Inductive deque_ref : Type := the_deque.

(** A DataFrame object, named by its allocation number. *)
Definition frame_ref : Type := nat.

Record Store : Type := {
  deque_items : list dict;
  frames : list DataFrame
}.

(** The state at import time: [deque(maxlen=DEQUE_SIZE)], no frame yet. *)
Definition initial_store : Store := {| deque_items := []; frames := [] |}.

(** The items seen through a reference to the deque. *)
Definition deref_deque (s : Store) (r : deque_ref) : list dict :=
  match r with the_deque => deque_items s end.

Definition deref_frame (s : Store) (r : frame_ref) : option DataFrame :=
  frames s !! r.

(** ** The sampling pipeline *)

(** What one recomputation takes from outside: the two results of
    [random.random()] behind the calls of [random.uniform], in call order,
    and the value of [datetime.now()]. *)
Record Draw : Type := {
  random_antarctic : Q;
  random_arctic : Q;
  now : datetime
}.

(** The tuple that [reactive_calc_combined] returns. *)
Record Snapshot : Type := {
  deque_snapshot : deque_ref;
  df : frame_ref;
  latest_dictionary_entry : dict
}.

Definition temp_antarctic_of (d : Draw) : Q :=
  py_round (uniform (-18) (-16) (random_antarctic d)) 1.

Definition temp_arctic_of (d : Draw) : Q :=
  py_round (uniform (-20) (-15) (random_arctic d)) 1.

Definition new_dictionary_entry (d : Draw) : dict :=
  [ ("temp_antarctic", VFloat (Finite (temp_antarctic_of d)));
    ("temp_arctic", VFloat (Finite (temp_arctic_of d)));
    ("timestamp", VStr (strftime (now d))) ].

(** The body of [reactive_calc_combined]. *)
Definition reactive_calc_combined (d : Draw) (s : Store) : Snapshot * Store :=
  let entry := new_dictionary_entry d in
  (* reactive_value_wrapper.get().append(new_dictionary_entry) *)
  let items := deque_append DEQUE_SIZE (deque_items s) entry in
  (* deque_snapshot = reactive_value_wrapper.get() *)
  let snapshot_ref := the_deque in
  (* df = pd.DataFrame(deque_snapshot) *)
  let frame := make_DataFrame items in
  let frame_id := length (frames s) in
  ({| deque_snapshot := snapshot_ref;
      df := frame_id;
      latest_dictionary_entry := entry |},
   {| deque_items := items; frames := frames s ++ [frame] |}).

(** ** The text consumers *)

Definition datetime_fields (t : datetime) : list Z :=
  [year t; month t; day t; hour t; minute t; second t; microsecond t].

Fixpoint lex_lt (a b : list Z) : bool :=
  match a, b with
  | x :: a', y :: b' => (x <? y)%Z || ((x =? y)%Z && lex_lt a' b')
  | [], _ :: _ => true
  | _, [] => false
  end.

(** [a < b] on Python values: defined inside one type, [TypeError] across. *)
Definition value_lt (a b : value) : result bool :=
  match a, b with
  | VFloat x, VFloat y => Ok (float_lt x y)
  | VStr x, VStr y => Ok (String.ltb x y)
  | VTime x, VTime y => Ok (lex_lt (datetime_fields x) (datetime_fields y))
  | _, _ => Raise TypeError
  end.

(** [str(t)] for a datetime. *)
Definition str_datetime (t : datetime) : string :=
  (strftime t ++
   (if (microsecond t =? 0)%Z then "" else "." ++ padded 6 (microsecond t) ""))%string.

(** What [{v}] prints inside an f-string. *)
Definition format_value (v : value) : string :=
  match v with
  | VFloat x => repr_float x
  | VStr s => s
  | VTime t => str_datetime t
  end.

Definition display_temp_antarctic (snap : Snapshot) : result string :=
  t ← subscript (latest_dictionary_entry snap) "temp_antarctic";
  Ok (format_value t ++ " C")%string.

Definition display_temp_arctic (snap : Snapshot) : result string :=
  t ← subscript (latest_dictionary_entry snap) "temp_arctic";
  Ok (format_value t ++ " C")%string.

Definition compare_temperatures (snap : Snapshot) : result string :=
  temp_arctic ← subscript (latest_dictionary_entry snap) "temp_arctic";
  temp_antarctic ← subscript (latest_dictionary_entry snap) "temp_antarctic";
  colder ← value_lt temp_arctic temp_antarctic;
  if (colder : bool)
  then Ok ("Arctic is colder: " ++ format_value temp_arctic ++ "°C vs "
             ++ format_value temp_antarctic ++ "°C")%string
  else Ok ("Antarctic is colder: " ++ format_value temp_antarctic ++ "°C vs "
             ++ format_value temp_arctic ++ "°C")%string.

(** [render.DataGrid(df, width="100%")]: the grid shows the frame it is
    given, by reference. *)
Record DataGrid : Type := {
  grid_data : frame_ref;
  grid_width : string
}.

Definition display_df (snap : Snapshot) : DataGrid :=
  {| grid_data := df snap; grid_width := "100%" |}.

(** ** The chart *)

Record Trace : Type := {
  trace_x : list cell;
  trace_y : list cell;
  trace_mode : string;
  trace_name : string
}.

Record Figure : Type := {
  fig_title : string;
  fig_traces : list Trace;
  xaxis_title : string;
  yaxis_title : string
}.

(** [fig.add_scatter(x=.., y=.., mode=.., name=..)]. *)
Definition add_scatter (fig : Figure) (x y : list cell) (mode name : string)
  : Figure :=
  {| fig_title := fig_title fig;
     fig_traces := fig_traces fig ++
       [{| trace_x := x; trace_y := y; trace_mode := mode; trace_name := name |}];
     xaxis_title := xaxis_title fig;
     yaxis_title := yaxis_title fig |}.

(** [fig.update_layout(xaxis_title=.., yaxis_title=..)]. *)
Definition update_layout (fig : Figure) (xt yt : string) : Figure :=
  {| fig_title := fig_title fig;
     fig_traces := fig_traces fig;
     xaxis_title := xt;
     yaxis_title := yt |}.

(** What [stats.linregress] returns. *)
Record LinregressResult : Type := {
  slope : float;
  intercept : float;
  rvalue : float;
  pvalue : float;
  stderr : float
}.

(** Statements that read and write one DataFrame object and may raise:
    a write made before an exception stays. *)
Definition frame_op (A : Type) : Type := DataFrame -> DataFrame * result A.

#[global] Instance frame_op_ret : MRet frame_op := fun A a fr => (fr, Ok a).
#[global] Instance frame_op_bind : MBind frame_op :=
  fun A B k m fr =>
    match m fr with
    | (fr', Ok a) => k a fr'
    | (fr', Raise e) => (fr', Raise e)
    end.

Definition lift {A : Type} (r : result A) : frame_op A := fun fr => (fr, r).

Definition read_column (k : string) : frame_op (list cell) :=
  fun fr => (fr, get_column fr k).

Definition write_column (k : string) (c : list cell) : frame_op unit :=
  fun fr =>
    match set_column fr k c with
    | Ok fr' => (fr', Ok tt)
    | Raise e => (fr, Raise e)
    end.

(** [len(df)]. *)
Definition frame_len : frame_op nat := fun fr => (fr, Ok (nrows fr)).

(** [range(n)]. *)
Definition range (n : nat) : list Z := map Z.of_nat (seq 0 n).

(** [px.scatter(df, x=xk, y=yk, title=.., labels=..)]: one trace of
    markers from two columns of the frame, which must exist; the axes are
    titled by [labels]. *)
Definition px_scatter (xk yk title xlabel ylabel : string) : frame_op Figure :=
  fun fr =>
    match find_column (columns fr) xk, find_column (columns fr) yk with
    | Some x, Some y =>
        (fr, Ok {| fig_title := title;
                   fig_traces := [{| trace_x := x; trace_y := y;
                                     trace_mode := "markers"; trace_name := "" |}];
                   xaxis_title := xlabel;
                   yaxis_title := ylabel |})
    | _, _ => (fr, Raise ValueError)
    end.

Section Chart.

(** The two library routines whose results the chart depends on, taken
    as they come: [pd.to_datetime] on a column, and [stats.linregress]
    on the x values and the y column it is handed. *)
Variable to_datetime : list cell -> result (list cell).
Variable linregress : list Z -> list cell -> result LinregressResult.

(** The point of the fitted line above [x]. *)
Definition fitted_point (fit : LinregressResult) (x : Z) : cell :=
  Some (VFloat (float_add (float_mul (slope fit) (float_of_int x))
                          (intercept fit))).

(** The block under [if not df.empty:]; it ends with [fig] bound. *)
Definition plot_and_fit : frame_op Figure :=
  ts ← read_column "timestamp";
  ts' ← lift (to_datetime ts);
  write_column "timestamp" ts';;
  fig ← px_scatter "timestamp" "temp_antarctic"
        "Temperature Readings with Regression Line (Antarctic)"
        "Time" "Temperature (°C)";
  n ← frame_len;
  let x_vals := range n in
  y_vals ← read_column "temp_antarctic";
  fit ← lift (linregress x_vals y_vals);
  write_column "best_fit_line" (map (fitted_point fit) x_vals);;
  line_x ← read_column "timestamp";
  line_y ← read_column "best_fit_line";
  let fig := add_scatter fig line_x line_y "lines" "Regression Line" in
  mret (update_layout fig "Time" "Temperature (°C)").

(** [display_plot], on the frame of the tuple it fetched: [return fig]
    with [fig] never assigned is an [UnboundLocalError]. *)
Definition display_plot_on : frame_op Figure :=
  fun fr =>
    if negb (df_empty fr) then plot_and_fit fr
    else (fr, Raise (UnboundLocalError "fig")).

(** [display_plot] on a tuple: the frame is reached through its
    reference, and what the function writes is written to that object.
    (A reference to no object does not arise, see [df_allocated].) *)
Definition display_plot (snap : Snapshot) (s : Store)
  : result Figure * Store :=
  match deref_frame s (df snap) with
  | Some fr =>
      let '(fr', r) := display_plot_on fr in
      (r, {| deque_items := deque_items s;
             frames := <[df snap := fr']> (frames s) |})
  | None => (Raise (UnboundLocalError "df"), s)
  end.

(** ** The reactive runtime *)

(** [@reactive.calc]: the value of the last execution is kept and handed
    to every caller until the calc is invalidated; the first call after an
    invalidation executes the body again.  [reactive.invalidate_later]
    makes the timer invalidate the calc [UPDATE_INTERVAL_SECS] seconds
    after an execution. *)
Record App : Type := {
  store : Store;
  cache : option Snapshot
}.

Definition initial_app : App := {| store := initial_store; cache := None |}.

(** A call [reactive_calc_combined()] made by a consumer; [d] is what the
    body draws if it has to execute. *)
Definition call_reactive_calc (d : Draw) (a : App) : Snapshot * App :=
  match cache a with
  | Some snap => (snap, a)
  | None =>
      let '(snap, s') := reactive_calc_combined d (store a) in
      (snap, {| store := s'; cache := Some snap |})
  end.

(** The timer fires. *)
Definition invalidate (a : App) : App := {| store := store a; cache := None |}.

Inductive consumer : Type :=
| Display_temp_antarctic
| Display_temp_arctic
| Compare_temperatures
| Display_df
| Display_plot.

Inductive output : Type :=
| Text (r : result string)
| Grid (g : DataGrid)
| Plot (r : result Figure).

(** One execution of a render function: it fetches the tuple, then does its
    own work. *)
Definition render (c : consumer) (d : Draw) (a : App) : output * App :=
  let '(snap, a1) := call_reactive_calc d a in
  match c with
  | Display_temp_antarctic => (Text (display_temp_antarctic snap), a1)
  | Display_temp_arctic => (Text (display_temp_arctic snap), a1)
  | Compare_temperatures => (Text (compare_temperatures snap), a1)
  | Display_df => (Grid (display_df snap), a1)
  | Display_plot =>
      let '(r, s') := display_plot snap (store a1) in
      (Plot r, {| store := s'; cache := cache a1 |})
  end.

Inductive event : Type :=
| Invalidate
| Render (c : consumer) (d : Draw).

Definition step (a : App) (e : event) : App :=
  match e with
  | Invalidate => invalidate a
  | Render c d => snd (render c d a)
  end.

Definition run (tr : list event) (a : App) : App := fold_left step tr a.

End Chart.

(** The pipeline alone, executed once per draw. *)
Definition recompute (s : Store) (d : Draw) : Store :=
  snd (reactive_calc_combined d s).

Definition recompute_all (ds : list Draw) (s : Store) : Store :=
  fold_left recompute ds s.

(** ** Instances of the library routines, to run the chart on examples *)

Module Sample.

Definition digit_value (c : ascii) : option Z :=
  let n := nat_of_ascii c in
  if (48 <=? n) && (n <=? 57) then Some (Z.of_nat (n - 48)) else None.

Fixpoint number_of (s : string) (acc : Z) : option Z :=
  match s with
  | EmptyString => Some acc
  | String c s' => d ← digit_value c; number_of s' (acc * 10 + d)%Z
  end.

(** The text [YYYY-MM-DD HH:MM:SS] read back as a datetime. *)
Definition parse_timestamp (s : string) : option datetime :=
  if (String.length s =? 19)
     && String.eqb (substring 4 1 s) "-" && String.eqb (substring 7 1 s) "-"
     && String.eqb (substring 10 1 s) " " && String.eqb (substring 13 1 s) ":"
     && String.eqb (substring 16 1 s) ":"
  then
    y ← number_of (substring 0 4 s) 0;
    mo ← number_of (substring 5 2 s) 0;
    d ← number_of (substring 8 2 s) 0;
    h ← number_of (substring 11 2 s) 0;
    mi ← number_of (substring 14 2 s) 0;
    se ← number_of (substring 17 2 s) 0;
    Some {| year := y; month := mo; day := d; hour := h; minute := mi;
            second := se; microsecond := 0 |}
  else None.

Definition to_datetime_cell (c : cell) : result cell :=
  match c with
  | None => Ok None
  | Some (VTime t) => Ok (Some (VTime t))
  | Some (VStr s) =>
      match parse_timestamp s with
      | Some t => Ok (Some (VTime t))
      | None => Raise ValueError
      end
  | Some (VFloat _) => Raise TypeError
  end.

(** A conversion of a column of timestamps, cell by cell. *)
Fixpoint to_datetime (c : list cell) : result (list cell) :=
  match c with
  | [] => Ok []
  | x :: c' => y ← to_datetime_cell x; ys ← to_datetime c'; Ok (y :: ys)
  end.

Fixpoint finite_cells (c : list cell) : option (list Q) :=
  match c with
  | [] => Some []
  | Some (VFloat (Finite q)) :: c' => qs ← finite_cells c'; Some (q :: qs)
  | _ :: _ => None
  end.

Definition Qsum (l : list Q) : Q := fold_right Qplus 0%Q l.

(** The least-squares line through the points [(x_i, y_i)]; where the x
    values do not vary the line is left undefined (NaN).  The statistics
    beside slope and intercept are not computed here. *)
Definition least_squares (xs : list Z) (ys : list cell)
  : result LinregressResult :=
  match finite_cells ys with
  | None => Raise TypeError
  | Some y =>
      if (length xs =? 0) || negb (length xs =? length y) then Raise ValueError
      else
        let x := map inject_Z xs in
        let n := inject_Z (Z.of_nat (length xs)) in
        let sx := Qsum x in
        let sy := Qsum y in
        let sxx := Qsum (map (fun a => a * a)%Q x) in
        let sxy := Qsum (zip_with Qmult x y) in
        let den := (n * sxx - sx * sx)%Q in
        if Qeq_bool den 0
        then Ok {| slope := NaN; intercept := NaN; rvalue := NaN;
                   pvalue := NaN; stderr := NaN |}
        else
          let b := Qred ((n * sxy - sx * sy) / den)%Q in
          Ok {| slope := Finite b;
                intercept := Finite (Qred ((sy - b * sx) / n)%Q);
                rvalue := NaN; pvalue := NaN; stderr := NaN |}
  end.

Definition noon : datetime :=
  {| year := 2024; month := 3; day := 9; hour := 12; minute := 0;
     second := 0; microsecond := 250000 |}.

Definition later (secs : Z) : datetime :=
  {| year := 2024; month := 3; day := 9; hour := 12; minute := 0;
     second := secs; microsecond := 250000 |}.

Definition draw1 : Draw :=
  {| random_antarctic := 1 # 2; random_arctic := 1 # 5; now := noon |}.

Definition draw2 : Draw :=
  {| random_antarctic := 1 # 4; random_arctic := 9 # 10; now := later 3 |}.

Definition draws7 : list Draw :=
  map (fun k => {| random_antarctic := Z.of_nat k # 8;
                   random_arctic := Z.of_nat (7 - k) # 8;
                   now := later (3 * Z.of_nat k) |})
      (seq 0 7).

(** The state after two recomputations, its frame, and what the chart
    reads from it and gets back from the two routines. *)
Definition store2 : Store := recompute_all [draw1; draw2] initial_store.

Definition frame2 : DataFrame := make_DataFrame (deque_items store2).

Definition ts2 : list cell :=
  map (fun e => dict_get e "timestamp") (deque_items store2).

Definition ys2 : list cell :=
  map (fun e => dict_get e "temp_antarctic") (deque_items store2).

Definition ts2' : list cell :=
  match to_datetime ts2 with Ok c => c | Raise _ => [] end.

Definition fit2 : LinregressResult :=
  match least_squares (range 2) ys2 with
  | Ok f => f
  | Raise _ => {| slope := NaN; intercept := NaN; rvalue := NaN;
                  pvalue := NaN; stderr := NaN |}
  end.


Definition snap1 : Snapshot := fst (call_reactive_calc draw1 initial_app).

(** A fit that refuses its input. *)
Definition failing_fit (xs : list Z) (ys : list cell)
  : result LinregressResult :=
  Raise ValueError.


(** The frame and the figure that the chart leaves of [frame2]. *)
Definition charted2 : DataFrame :=
  fst (display_plot_on to_datetime least_squares frame2).

Definition fig2 : Figure :=
  match snd (display_plot_on to_datetime least_squares frame2) with
  | Ok f => f
  | Raise _ => {| fig_title := ""; fig_traces := []; xaxis_title := "";
                  yaxis_title := "" |}
  end.

(** The figure of the first chart. *)
Definition fig1 : Figure :=
  match fst (render to_datetime least_squares Display_plot draw1 initial_app)
  with
  | Plot (Ok f) => f
  | _ => {| fig_title := ""; fig_traces := []; xaxis_title := "";
            yaxis_title := "" |}
  end.

End Sample.

(** ** Vocabulary of the statements *)

(** A reading: the dict the pipeline builds from two temperatures and a
    timestamp text. *)
Definition reading (t_antarctic t_arctic : Q) (ts : string) : dict :=
  [ ("temp_antarctic", VFloat (Finite t_antarctic));
    ("temp_arctic", VFloat (Finite t_arctic));
    ("timestamp", VStr ts) ].

Definition is_reading (e : dict) : Prop :=
  exists ta tr ts, e = reading ta tr ts.


(** The column labels of a frame of readings. *)
Definition names3 : list string :=
  ["temp_antarctic"; "temp_arctic"; "timestamp"].

(** A statement sequence that leaves a non-empty frame non-empty. *)
Definition keeps_nonempty {A : Type} (m : frame_op A) : Prop :=
  forall fr, df_empty fr = false -> df_empty (fst (m fr)) = false.

(** What holds of every state the application reaches: the buffer holds
    readings, no frame is empty, and a cached tuple refers to a frame that
    exists. *)
Definition well_formed (a : App) : Prop :=
  Forall is_reading (deque_items (store a))
  /\ Forall (fun fr => df_empty fr = false) (frames (store a))
  /\ (forall snap, cache a = Some snap -> df snap < length (frames (store a))).

(** The events of a stretch of renders with no invalidation in between. *)
Definition renders (rs : list (consumer * Draw)) : list event :=
  map (fun r => Render (fst r) (snd r)) rs.

(** The tuple whose third component is [e]. *)
Definition tuple_with (r : frame_ref) (e : dict) : Snapshot :=
  {| deque_snapshot := the_deque; df := r; latest_dictionary_entry := e |}.

(** A property of the frame that a statement sequence keeps. *)
Definition preserves {A : Type} (P : DataFrame -> Prop) (m : frame_op A)
  : Prop :=
  forall fr, P fr -> P (fst (m fr)).

(** Whether the reactive calc holds a value. *)
Definition cached (a : App) : bool :=
  match cache a with Some _ => true | None => false end.

(** The draws that a sequence of events consumes: the calc executes at a
    render that finds no cached value, and only there. *)
Fixpoint recomputations (valid : bool) (tr : list event) : list Draw :=
  match tr with
  | [] => []
  | Invalidate :: tr' => recomputations false tr'
  | Render _ d :: tr' =>
      if valid then recomputations true tr' else d :: recomputations true tr'
  end.

Definition is_digit (c : ascii) : bool :=
  (48 <=? nat_of_ascii c) && (nat_of_ascii c <=? 57).

(** A text of the shape [-dd.d C]. *)
Definition one_decimal_text (s : string) : bool :=
  match s with
  | String "-" (String a (String b (String "." (String c " C")))) =>
      is_digit a && is_digit b && is_digit c
  | _ => false
  end.

(** A frame as the application holds them: between one and [DEQUE_SIZE]
    rows, every column with one cell per row, and the two columns the
    chart reads. *)
Definition frame_ok (fr : DataFrame) : Prop :=
  (1 <= nrows fr /\ nrows fr <= DEQUE_SIZE)
  /\ Forall (fun kc => length (snd kc) = nrows fr) (columns fr)
  /\ is_Some (find_column (columns fr) "timestamp")
  /\ is_Some (find_column (columns fr) "temp_antarctic").

Definition state_ok (a : App) : Prop :=
  length (deque_items (store a)) <= DEQUE_SIZE
  /\ Forall frame_ok (frames (store a)).


(** The figure of a chart that succeeds: the markers over the converted
    timestamps, then the fitted line over the same timestamps. *)
Definition chart_figure (ts' ys line : list cell) : Figure :=
  {| fig_title := "Temperature Readings with Regression Line (Antarctic)";
     fig_traces :=
       [ {| trace_x := ts'; trace_y := ys;
            trace_mode := "markers"; trace_name := "" |};
         {| trace_x := ts'; trace_y := line;
            trace_mode := "lines"; trace_name := "Regression Line" |} ];
     xaxis_title := "Time";
     yaxis_title := "Temperature (°C)" |}.

(** The frame of a chart that succeeds. *)
Definition charted_frame (fr : DataFrame) (ts' line : list cell) : DataFrame :=
  {| nrows := nrows fr;
     columns :=
       replace_column (replace_column (columns fr) "timestamp" ts')
                      "best_fit_line" line |}.

(** The column a frame of the buffer holds under a key. *)
Definition buffer_column (s : Store) (k : string) : list cell :=
  map (fun e => dict_get e k) (deque_items s).

(** The frame of the cached tuple shows the buffer as it is. *)
Definition table_matches_buffer (a : App) : Prop :=
  forall snap, cache a = Some snap ->
    exists fr,
      deref_frame (store a) (df snap) = Some fr
      /\ nrows fr = length (deque_items (store a))
      /\ find_column (columns fr) "temp_antarctic"
         = Some (buffer_column (store a) "temp_antarctic")
      /\ find_column (columns fr) "temp_arctic"
         = Some (buffer_column (store a) "temp_arctic").

(** * Properties *)

(** ** Rounding *)

Lemma round_half_even_range (x : Q) (lo hi : Z) :
  (inject_Z lo <= x)%Q -> (x <= inject_Z hi)%Q ->
  (lo <= round_half_even x <= hi)%Z.
Proof.
  intros Hlo Hhi. unfold round_half_even.
  assert (Hf1 : (lo <= Qfloor x)%Z).
  { rewrite <- (Qfloor_Z lo). now apply Qfloor_resp_le. }
  assert (Hf2 : (Qfloor x <= hi)%Z).
  { rewrite <- (Qfloor_Z hi). now apply Qfloor_resp_le. }
  destruct (Z.eq_dec (Qfloor x) hi) as [Heq | Hne].
  - assert (Hx : (x - inject_Z (Qfloor x) < 1 # 2)%Q).
    { rewrite Heq. lra. }
    destruct (x - inject_Z (Qfloor x) ?= 1 # 2)%Q eqn:Hc.
    + apply Qeq_alt in Hc. lra.
    + lia.
    + apply Qgt_alt in Hc. lra.
  - destruct (x - inject_Z (Qfloor x) ?= 1 # 2)%Q; [destruct (Z.even _) | |]; lia.
Qed.


Lemma py_round_1 (x : Q) :
  py_round x 1 = Qmake (round_half_even (x * 10)%Q) 10.
Proof. reflexivity. Qed.



Lemma uniform_range (a b u : Q) :
  (a <= b)%Q -> (0 <= u)%Q -> (u < 1)%Q ->
  (a <= uniform a b u)%Q /\ (uniform a b u <= b)%Q.
Proof. intros Hab H0 H1. unfold uniform. split; nra. Qed.

(** ** The generated reading *)


Lemma new_dictionary_entry_reading (d : Draw) :
  new_dictionary_entry d =
  reading (temp_antarctic_of d) (temp_arctic_of d) (strftime (now d)).
Proof. reflexivity. Qed.



(** ** The comparison *)

Lemma Qltb_lt (x y : Q) : Qltb x y = true <-> (x < y)%Q.
Proof.
  unfold Qltb. rewrite negb_true_iff. split.
  - intros H. apply Qnot_le_lt. intros Hle.
    apply Qle_bool_iff in Hle. congruence.
  - intros H. destruct (Qle_bool y x) eqn:E; [| reflexivity].
    apply Qle_bool_iff in E. apply Qle_not_lt in E. contradiction.
Qed.

(** C3. [compare_temperatures] depends on the latest reading only; it
    names Arctic exactly when the Arctic temperature is strictly lower and
    Antarctic otherwise (so also on a tie), printing the named region's
    temperature first and the other one second.  For -19.0 against -17.0
    it names Arctic, for -17.0 against -17.0 it names Antarctic. *)
Theorem compare_temperatures_names_colder :
  (forall (q1 q2 : deque_ref) (r1 r2 : frame_ref) (e : dict),
      compare_temperatures
        {| deque_snapshot := q1; df := r1; latest_dictionary_entry := e |}
      = compare_temperatures
          {| deque_snapshot := q2; df := r2; latest_dictionary_entry := e |})
  /\ (forall (r : frame_ref) (t_antarctic t_arctic : Q) (ts : string),
        compare_temperatures (tuple_with r (reading t_antarctic t_arctic ts))
        = Ok (if Qltb t_arctic t_antarctic
              then ("Arctic is colder: " ++ repr_float (Finite t_arctic)
                      ++ "°C vs " ++ repr_float (Finite t_antarctic) ++ "°C")%string
              else ("Antarctic is colder: " ++ repr_float (Finite t_antarctic)
                      ++ "°C vs " ++ repr_float (Finite t_arctic) ++ "°C")%string))
  /\ (forall x y : Q, Qltb x y = true <-> (x < y)%Q)
  /\ (forall x : Q, Qltb x x = false)
  /\ compare_temperatures (tuple_with 0 (reading (-17) (-19) "t"))
     = Ok "Arctic is colder: -19.0°C vs -17.0°C"
  /\ compare_temperatures (tuple_with 0 (reading (-17) (-17) "t"))
     = Ok "Antarctic is colder: -17.0°C vs -17.0°C".
Proof.
  split; [reflexivity |].
  split.
  { intros r ta tr ts. unfold compare_temperatures, tuple_with, reading.
    cbn -[repr_float Qltb String.append].
    destruct (Qltb tr ta); reflexivity. }
  split; [apply Qltb_lt |].
  split.
  { intros x. destruct (Qltb x x) eqn:E; [| reflexivity].
    apply Qltb_lt in E. exfalso. apply (Qlt_irrefl x E). }
  split; vm_compute; reflexivity.
Qed.

(** ** The buffer *)

Lemma tl_drop {A : Type} (l : list A) (k : nat) : tl (drop k l) = drop (S k) l.
Proof.
  revert k. induction l as [| a l IH]; intros [| k]; simpl; auto.
Qed.

Lemma deque_append_suffix {A : Type} (m : nat) (l : list A) (x : A) :
  0 < m ->
  deque_append m (drop (length l - m) l) x
  = drop (length (l ++ [x]) - m) (l ++ [x]).
Proof.
  intros Hm. unfold deque_append.
  rewrite !length_app, length_drop. simpl.
  destruct (Nat.ltb_spec m (length l - (length l - m) + 1)) as [Hlt | Hge].
  - assert (Hlen : m <= length l) by lia.
    replace (length l + 1 - m) with (S (length l - m)) by lia.
    rewrite <- drop_app_le by lia.
    apply tl_drop.
  - assert (Hlen : length l < m) by lia.
    replace (length l - m) with 0 by lia.
    replace (length l + 1 - m) with 0 by lia.
    now rewrite !drop_0.
Qed.

Lemma last_deque_append {A : Type} (m : nat) (l : list A) (x : A) :
  0 < m -> last (deque_append m l x) = Some x.
Proof.
  intros Hm. unfold deque_append.
  destruct (Nat.ltb_spec m (length (l ++ [x]))) as [Hlt | Hge].
  - rewrite length_app in Hlt. simpl in Hlt.
    destruct l as [| a l]; simpl in *; [lia |].
    apply last_snoc.
  - apply last_snoc.
Qed.

Lemma recompute_all_snoc (ds : list Draw) (d : Draw) (s : Store) :
  recompute_all (ds ++ [d]) s = recompute (recompute_all ds s) d.
Proof. unfold recompute_all. now rewrite fold_left_app. Qed.

Lemma recompute_all_buffer (ds : list Draw) :
  deque_items (recompute_all ds initial_store)
  = drop (length ds - DEQUE_SIZE) (map new_dictionary_entry ds).
Proof.
  induction ds as [| d ds IH] using rev_ind.
  - reflexivity.
  - rewrite recompute_all_snoc. unfold recompute. simpl.
    rewrite IH, map_app. simpl.
    rewrite <- (length_map new_dictionary_entry ds).
    rewrite deque_append_suffix by (unfold DEQUE_SIZE; lia).
    now rewrite !length_app, !length_map.
Qed.

(** C1. The buffer is a FIFO of capacity 5: an invocation puts exactly its
    own reading at the tail, dropping the head when (and only when) five are
    held; so after N invocations from the start the buffer holds the last
    five readings generated, in generation order (all of them while
    N <= 5), and its length is min(N, 5). *)
Theorem history_buffer_fifo :
  (forall (s : Store) (d : Draw),
      deque_items (recompute s d)
      = (if length (deque_items s) <? DEQUE_SIZE
         then deque_items s else tl (deque_items s))
          ++ [new_dictionary_entry d])
  /\ (forall ds : list Draw,
        deque_items (recompute_all ds initial_store)
        = drop (length ds - 5) (map new_dictionary_entry ds))
  /\ (forall ds : list Draw,
        length (deque_items (recompute_all ds initial_store))
        = Nat.min (length ds) 5).
Proof.
  split; [| split].
  - intros s d. unfold recompute. simpl. unfold deque_append.
    rewrite length_app. simpl. unfold DEQUE_SIZE.
    destruct (Nat.ltb_spec 5 (length (deque_items s) + 1)),
             (Nat.ltb_spec (length (deque_items s)) 5); try lia; trivial.
    destruct (deque_items s); [simpl in *; lia | reflexivity].
  - apply recompute_all_buffer.
  - intros ds. rewrite recompute_all_buffer, length_drop, length_map.
    unfold DEQUE_SIZE. lia.
Qed.

(** C4. After an invocation, the reading it generated is the last element
    of the buffer (read through the reference the tuple holds) and is the
    tuple's third component. *)
Theorem newest_reading_is_tail_and_latest (d : Draw) (s : Store) :
  let snap := fst (reactive_calc_combined d s) in
  let s' := snd (reactive_calc_combined d s) in
  last (deref_deque s' (deque_snapshot snap)) = Some (new_dictionary_entry d)
  /\ latest_dictionary_entry snap = new_dictionary_entry d.
Proof.
  simpl. split; [| reflexivity].
  apply last_deque_append. unfold DEQUE_SIZE. lia.
Qed.

(** ** Frames *)

Lemma find_replace_same (cols : list (string * list cell)) (k : string)
      (c : list cell) :
  find_column (replace_column cols k c) k = Some c.
Proof.
  induction cols as [| [k' c'] cols IH]; simpl.
  - now rewrite String.eqb_refl.
  - destruct (String.eqb k' k) eqn:E; simpl.
    + now rewrite String.eqb_refl.
    + now rewrite E.
Qed.

Lemma find_replace_other (cols : list (string * list cell)) (k k' : string)
      (c : list cell) :
  k <> k' -> find_column (replace_column cols k c) k' = find_column cols k'.
Proof.
  intros Hne. induction cols as [| [k0 c0] cols IH]; simpl.
  - apply String.eqb_neq in Hne. now rewrite Hne.
  - destruct (String.eqb k0 k) eqn:E; simpl.
    + apply String.eqb_eq in E. subst k0.
      apply String.eqb_neq in Hne. now rewrite Hne.
    + now rewrite IH.
Qed.

Lemma replace_column_not_nil (cols : list (string * list cell)) (k : string)
      (c : list cell) :
  replace_column cols k c <> [].
Proof.
  destruct cols as [| [k' c'] cols]; simpl; [discriminate |].
  destruct (String.eqb k' k); discriminate.
Qed.

Lemma df_empty_false (fr : DataFrame) :
  df_empty fr = false <-> 0 < nrows fr /\ columns fr <> [].
Proof.
  unfold df_empty. rewrite orb_false_iff, !Nat.eqb_neq.
  destruct (columns fr); simpl; split; intros [H1 H2]; split;
    try lia; try congruence; try discriminate.
Qed.

Lemma set_column_nonempty (fr fr' : DataFrame) (k : string) (c : list cell) :
  set_column fr k c = Ok fr' -> df_empty fr = false -> df_empty fr' = false.
Proof.
  unfold set_column. destruct (length c =? nrows fr); [| discriminate].
  intros [= <-] H. apply df_empty_false in H as [Hn _].
  apply df_empty_false. simpl. split; [exact Hn | apply replace_column_not_nil].
Qed.

Lemma add_key_not_nil (acc : list string) (k : string) : add_key acc k <> [].
Proof.
  unfold add_key. destruct (existsb (String.eqb k) acc) eqn:E.
  - destruct acc; [discriminate | discriminate].
  - destruct acc; discriminate.
Qed.

Lemma column_names_snoc (rows : list dict) (e : dict) :
  column_names (rows ++ [e])
  = fold_left add_key (map fst e) (column_names rows).
Proof. unfold column_names. now rewrite fold_left_app. Qed.

Lemma column_names_readings_from (rows : list dict) (acc : list string) :
  Forall is_reading rows -> acc = names3 ->
  fold_left (fun acc d => fold_left add_key (map fst d) acc) rows acc = names3.
Proof.
  intros H. revert acc. induction H as [| e rows He _ IH]; intros acc ->.
  - reflexivity.
  - simpl. apply IH. destruct He as (ta & tr & ts & ->). reflexivity.
Qed.

Lemma column_names_readings (rows : list dict) :
  Forall is_reading rows -> rows <> [] -> column_names rows = names3.
Proof.
  intros H Hne. destruct H as [| e rows He Hrows]; [congruence |].
  unfold column_names. simpl.
  apply column_names_readings_from; [exact Hrows |].
  destruct He as (ta & tr & ts & ->). reflexivity.
Qed.

Lemma make_DataFrame_new_entry_nonempty (items : list dict) (d : Draw) :
  df_empty (make_DataFrame (deque_append DEQUE_SIZE items (new_dictionary_entry d)))
  = false.
Proof.
  apply df_empty_false. simpl.
  pose proof (last_deque_append DEQUE_SIZE items (new_dictionary_entry d)) as Hl.
  assert (H5 : 0 < DEQUE_SIZE) by (unfold DEQUE_SIZE; lia).
  specialize (Hl H5).
  destruct (deque_append DEQUE_SIZE items (new_dictionary_entry d))
    as [| e l] eqn:E using rev_ind; [discriminate |].
  rewrite last_snoc in Hl. injection Hl as ->.
  rewrite length_app. simpl. split; [lia |].
  rewrite column_names_snoc. intros Hnil.
  apply map_eq_nil in Hnil. simpl in Hnil.
  exact (add_key_not_nil _ _ Hnil).
Qed.

Lemma keeps_bind {A B : Type} (m : frame_op A) (k : A -> frame_op B) :
  keeps_nonempty m -> (forall a, keeps_nonempty (k a)) ->
  keeps_nonempty (m ≫= k).
Proof.
  intros Hm Hk fr H. unfold mbind, frame_op_bind.
  specialize (Hm fr H). destruct (m fr) as [fr' [a | e]]; simpl in *.
  - now apply Hk.
  - exact Hm.
Qed.

Lemma keeps_ret {A : Type} (a : A) : keeps_nonempty (mret a : frame_op A).
Proof. intros fr H. exact H. Qed.

Lemma keeps_lift {A : Type} (r : result A) : keeps_nonempty (lift r).
Proof. intros fr H. exact H. Qed.

Lemma keeps_read_column (k : string) : keeps_nonempty (read_column k).
Proof. intros fr H. exact H. Qed.

Lemma keeps_frame_len : keeps_nonempty frame_len.
Proof. intros fr H. exact H. Qed.

Lemma keeps_px_scatter (xk yk t xl yl : string) :
  keeps_nonempty (px_scatter xk yk t xl yl).
Proof.
  intros fr H. unfold px_scatter.
  destruct (find_column (columns fr) xk), (find_column (columns fr) yk);
    exact H.
Qed.

Lemma keeps_write_column (k : string) (c : list cell) :
  keeps_nonempty (write_column k c).
Proof.
  intros fr H. unfold write_column.
  destruct (set_column fr k c) as [fr' |] eqn:E; simpl; [| exact H].
  eapply set_column_nonempty; eauto.
Qed.

Create HintDb frame.
#[local] Hint Resolve keeps_ret keeps_lift keeps_read_column keeps_frame_len
  keeps_px_scatter keeps_write_column : frame.

(** ** The chart and the runtime, for any behaviour of the two library
    routines *)

Section RuntimeProperties.

Variable to_datetime : list cell -> result (list cell).
Variable linregress : list Z -> list cell -> result LinregressResult.

Lemma plot_and_fit_keeps_nonempty :
  keeps_nonempty (plot_and_fit to_datetime linregress).
Proof.
  unfold plot_and_fit.
  repeat (apply keeps_bind; [auto with frame | intros ?]).
  auto with frame.
Qed.

Lemma display_plot_on_keeps_nonempty :
  keeps_nonempty (display_plot_on to_datetime linregress).
Proof.
  intros fr H. unfold display_plot_on. rewrite H. simpl.
  now apply plot_and_fit_keeps_nonempty.
Qed.

Lemma Forall_deque_append {A : Type} (P : A -> Prop) (m : nat) (l : list A)
      (x : A) :
  Forall P l -> P x -> Forall P (deque_append m l x).
Proof.
  intros Hl Hx. unfold deque_append.
  assert (H : Forall P (l ++ [x])) by (apply Forall_app; auto).
  destruct (m <? length (l ++ [x])); [| exact H].
  destruct (l ++ [x]); [constructor | now inversion H].
Qed.

Lemma new_dictionary_entry_is_reading (d : Draw) :
  is_reading (new_dictionary_entry d).
Proof. unfold is_reading. eauto using new_dictionary_entry_reading. Qed.

Lemma well_formed_initial : well_formed initial_app.
Proof.
  split; [| split]; simpl; try constructor. intros snap [=].
Qed.

Lemma call_reactive_calc_cached (d : Draw) (a : App) :
  cache (snd (call_reactive_calc d a)) = Some (fst (call_reactive_calc d a)).
Proof.
  unfold call_reactive_calc. destruct (cache a) eqn:E; simpl; [exact E |].
  reflexivity.
Qed.

Lemma call_reactive_calc_hit (d : Draw) (a : App) (snap : Snapshot) :
  cache a = Some snap -> call_reactive_calc d a = (snap, a).
Proof. intros H. unfold call_reactive_calc. now rewrite H. Qed.

Lemma call_reactive_calc_well_formed (d : Draw) (a : App) :
  well_formed a -> well_formed (snd (call_reactive_calc d a)).
Proof.
  intros (Hb & Hf & Hc). unfold call_reactive_calc.
  destruct (cache a) as [snap |] eqn:E; simpl.
  - split; [| split]; trivial.
    intros snap0 H0. apply Hc. congruence.
  - split; [| split]; simpl.
    + apply Forall_deque_append; [exact Hb |].
      apply new_dictionary_entry_is_reading.
    + apply Forall_app. split; [exact Hf |].
      constructor; [| constructor].
      apply make_DataFrame_new_entry_nonempty.
    + intros snap [= <-]. simpl. rewrite length_app. simpl. lia.
Qed.

Lemma render_well_formed (c : consumer) (d : Draw) (a : App) :
  well_formed a -> well_formed (snd (render to_datetime linregress c d a)).
Proof.
  intros H. apply (call_reactive_calc_well_formed d) in H.
  unfold render. destruct (call_reactive_calc d a) as [snap a1]. simpl in H.
  destruct c; simpl; trivial.
  destruct H as (Hb & Hf & Hc).
  unfold display_plot, deref_frame.
  destruct (frames (store a1) !! df snap) as [fr |] eqn:E; simpl.
  - destruct (display_plot_on to_datetime linregress fr) as [fr' r] eqn:Ep.
    simpl. split; [| split]; simpl; trivial.
    + apply Forall_insert; [exact Hf |].
      pose proof (display_plot_on_keeps_nonempty fr) as Hk.
      rewrite Ep in Hk. apply Hk.
      eapply Forall_lookup_1 in Hf; eauto.
    + rewrite length_insert. exact Hc.
  - split; [| split]; trivial.
Qed.

Lemma step_well_formed (a : App) (e : event) :
  well_formed a -> well_formed (step to_datetime linregress a e).
Proof.
  intros H. destruct e as [| c d]; simpl.
  - destruct H as (Hb & Hf & _). split; [| split]; trivial. intros snap [=].
  - now apply render_well_formed.
Qed.

Lemma run_well_formed (tr : list event) (a : App) :
  well_formed a -> well_formed (run to_datetime linregress tr a).
Proof.
  revert a. induction tr as [| e tr IH]; intros a H; simpl; [exact H |].
  apply IH, step_well_formed, H.
Qed.

(** *** Reads between two invalidations *)

Lemma render_cached (c : consumer) (d : Draw) (a : App) (snap : Snapshot) :
  cache a = Some snap ->
  cache (snd (render to_datetime linregress c d a)) = Some snap
  /\ deque_items (store (snd (render to_datetime linregress c d a)))
     = deque_items (store a).
Proof.
  intros H. unfold render. rewrite (call_reactive_calc_hit d a snap H).
  destruct c; simpl; auto.
  unfold display_plot.
  destruct (deref_frame (store a) (df snap)) as [fr |]; simpl; auto.
  destruct (display_plot_on to_datetime linregress fr); simpl; auto.
Qed.

Lemma renders_cached (rs : list (consumer * Draw)) (a : App) (snap : Snapshot) :
  cache a = Some snap ->
  cache (run to_datetime linregress (renders rs) a) = Some snap
  /\ deque_items (store (run to_datetime linregress (renders rs) a))
     = deque_items (store a).
Proof.
  revert a. induction rs as [| [c d] rs IH]; intros a H; simpl; [auto |].
  destruct (render_cached c d a snap H) as [Hc Hd].
  destruct (IH _ Hc) as [Hc' Hd']. split; [exact Hc' |].
  now rewrite Hd'.
Qed.

(** C7. Between two invalidations every call of the reactive calc returns
    the tuple of the first call: after a first call, and whatever renders
    follow with no invalidation in between, a further call executes
    nothing (the state is unchanged and the buffer holds what it held),
    returns the same tuple, and the text consumers print from that same
    latest reading. *)
Theorem reads_in_one_interval_agree (a : App) (d d' : Draw)
        (rs : list (consumer * Draw)) :
  let snap := fst (call_reactive_calc d a) in
  let a1 := snd (call_reactive_calc d a) in
  let a2 := run to_datetime linregress (renders rs) a1 in
  call_reactive_calc d' a2 = (snap, a2)
  /\ deque_items (store a2) = deque_items (store a1)
  /\ fst (render to_datetime linregress Display_temp_antarctic d' a2)
     = Text (display_temp_antarctic snap)
  /\ fst (render to_datetime linregress Display_temp_arctic d' a2)
     = Text (display_temp_arctic snap)
  /\ fst (render to_datetime linregress Compare_temperatures d' a2)
     = Text (compare_temperatures snap)
  /\ fst (render to_datetime linregress Display_df d' a2)
     = Grid (display_df snap).
Proof.
  intros snap a1 a2.
  destruct (renders_cached rs a1 snap (call_reactive_calc_cached d a))
    as [Hc Hd].
  fold a2 in Hc, Hd.
  pose proof (call_reactive_calc_hit d' a2 snap Hc) as Hhit.
  split; [exact Hhit |]. split; [exact Hd |].
  unfold render. rewrite Hhit. simpl. auto.
Qed.

(** *** The frame the chart receives *)

Lemma pipeline_frame_nonempty (d : Draw) (s : Store) :
  exists fr,
    deref_frame (snd (reactive_calc_combined d s))
                (df (fst (reactive_calc_combined d s))) = Some fr
    /\ fr = make_DataFrame (deque_items (snd (reactive_calc_combined d s)))
    /\ df_empty fr = false.
Proof.
  eexists. simpl. unfold deref_frame. simpl.
  split; [apply list_lookup_middle; reflexivity |].
  split; [reflexivity |].
  apply make_DataFrame_new_entry_nonempty.
Qed.

(** C10. The frame that the pipeline builds is never empty, since the new
    reading is appended first; and in every state the application reaches,
    the frame [display_plot] receives exists and is not empty, so the
    function runs the block under [if not df.empty:], which binds [fig],
    and returns what that block yields. *)
Theorem chart_frame_never_empty (tr : list event) (d : Draw) :
  let a := run to_datetime linregress tr initial_app in
  let snap := fst (call_reactive_calc d a) in
  let a1 := snd (call_reactive_calc d a) in
  (forall (s : Store) (d0 : Draw),
      df_empty (make_DataFrame (deque_items (snd (reactive_calc_combined d0 s))))
      = false)
  /\ exists fr,
      deref_frame (store a1) (df snap) = Some fr
      /\ df_empty fr = false
      /\ display_plot_on to_datetime linregress fr
         = plot_and_fit to_datetime linregress fr
      /\ fst (render to_datetime linregress Display_plot d a)
         = Plot (snd (plot_and_fit to_datetime linregress fr)).
Proof.
  intros a snap a1. split.
  { intros s d0. apply make_DataFrame_new_entry_nonempty. }
  assert (Hwf : well_formed a1).
  { apply call_reactive_calc_well_formed, run_well_formed, well_formed_initial. }
  destruct Hwf as (_ & Hf & Hc).
  specialize (Hc snap (call_reactive_calc_cached d a)).
  destruct (lookup_lt_is_Some_2 _ _ Hc) as [fr Hfr].
  exists fr. split; [exact Hfr |].
  assert (Hne : df_empty fr = false).
  { eapply Forall_lookup_1 in Hf; eauto. }
  split; [exact Hne |].
  assert (Hon : display_plot_on to_datetime linregress fr
                = plot_and_fit to_datetime linregress fr).
  { unfold display_plot_on. now rewrite Hne. }
  split; [exact Hon |].
  unfold render. subst snap a1.
  destruct (call_reactive_calc d a) as [snap a1]. simpl in *.
  change (deref_frame (store a1) (df snap) = Some fr) in Hfr.
  unfold display_plot. rewrite Hfr, Hon.
  now destruct (plot_and_fit to_datetime linregress fr).
Qed.

(** *** The tuple at the moment it is returned *)

Lemma make_DataFrame_readings (rows : list dict) :
  Forall is_reading rows -> rows <> [] ->
  columns (make_DataFrame rows)
  = [ ("temp_antarctic", map (fun e => dict_get e "temp_antarctic") rows);
      ("temp_arctic", map (fun e => dict_get e "temp_arctic") rows);
      ("timestamp", map (fun e => dict_get e "timestamp") rows) ].
Proof.
  intros H Hne. unfold make_DataFrame. simpl.
  now rewrite (column_names_readings rows H Hne).
Qed.

Lemma frame_row_readings (rows : list dict) (i : nat) (e : dict) :
  Forall is_reading rows -> rows !! i = Some e ->
  frame_row (make_DataFrame rows) i
  = map (fun kv => (fst kv, Some (Some (snd kv)))) e.
Proof.
  intros H Hi.
  assert (Hne : rows <> []) by (intros ->; discriminate).
  unfold frame_row. rewrite (make_DataFrame_readings rows H Hne). simpl.
  rewrite !list_lookup_fmap, Hi. simpl.
  eapply Forall_lookup_1 in H; eauto.
  destruct H as (ta & tr & ts & ->). reflexivity.
Qed.

Lemma frame_cells_present (rows : list dict) (k : string) (c : list cell) :
  Forall is_reading rows -> rows <> [] ->
  In (k, c) (columns (make_DataFrame rows)) -> Forall is_Some c.
Proof.
  intros H Hne. rewrite (make_DataFrame_readings rows H Hne). simpl.
  intros [[= <- <-] | [[= <- <-] | [[= <- <-] | []]]];
    apply Forall_fmap; eapply Forall_impl; eauto;
    intros e (ta & tr & ts & ->); simpl; eauto.
Qed.

(** C8. The tuple an invocation returns, in any state the application
    reaches and on the first tick too, is complete: the frame it refers to
    exists and has one row per buffer entry and the three columns of a
    reading, each as long as the buffer; row i holds, present, the two
    temperatures and the timestamp of the i-th buffer entry, which is a
    reading; no cell is missing; and the latest entry is a reading. *)
Theorem emitted_snapshot_complete (tr : list event) (d : Draw) :
  let a := run to_datetime linregress tr initial_app in
  let snap := fst (reactive_calc_combined d (store a)) in
  let s' := snd (reactive_calc_combined d (store a)) in
  let buffer := deref_deque s' (deque_snapshot snap) in
  exists fr,
    deref_frame s' (df snap) = Some fr
    /\ nrows fr = length buffer
    /\ 1 <= nrows fr
    /\ map fst (columns fr) = names3
    /\ Forall (fun kc => length (snd kc) = nrows fr) (columns fr)
    /\ (forall i e, buffer !! i = Some e ->
          is_reading e
          /\ frame_row fr i = map (fun kv => (fst kv, Some (Some (snd kv)))) e)
    /\ (forall k c, In (k, c) (columns fr) -> Forall is_Some c)
    /\ is_reading (latest_dictionary_entry snap)
    /\ (deque_items (store a) = [] -> nrows fr = 1).
Proof.
  intros a snap s' buffer.
  assert (Hwf : well_formed a) by apply run_well_formed, well_formed_initial.
  destruct Hwf as (Hb & _ & _).
  assert (Hbuf : Forall is_reading buffer).
  { apply Forall_deque_append; [exact Hb |].
    apply new_dictionary_entry_is_reading. }
  assert (Hlast : last buffer = Some (new_dictionary_entry d)).
  { apply last_deque_append. unfold DEQUE_SIZE. lia. }
  assert (Hne : buffer <> []) by (intros E; rewrite E in Hlast; discriminate).
  exists (make_DataFrame buffer).
  split. { unfold deref_frame. simpl. now apply list_lookup_middle. }
  split; [reflexivity |].
  split. { simpl. destruct buffer; [congruence | simpl; lia]. }
  split. { now rewrite (make_DataFrame_readings buffer Hbuf Hne). }
  split.
  { rewrite (make_DataFrame_readings buffer Hbuf Hne). simpl.
    repeat constructor; simpl; apply length_map. }
  split.
  { intros i e Hi. split.
    - eapply Forall_lookup_1 in Hbuf; eauto.
    - now apply frame_row_readings. }
  split. { intros k c. now apply frame_cells_present. }
  split. { apply new_dictionary_entry_is_reading. }
  intros Hempty. subst buffer s' snap. simpl. now rewrite Hempty.
Qed.

(** *** The trend line *)

Lemma bind_ok {A B : Type} (m : frame_op A) (k : A -> frame_op B)
      (fr fr' : DataFrame) (a : A) :
  m fr = (fr', Ok a) -> (m ≫= k) fr = k a fr'.
Proof. unfold mbind, frame_op_bind. now intros ->. Qed.

Lemma length_range (n : nat) : length (range n) = n.
Proof. unfold range. now rewrite length_map, length_seq. Qed.

Lemma lookup_range (n i : nat) : i < n -> range n !! i = Some (Z.of_nat i).
Proof.
  intros H. unfold range. rewrite list_lookup_fmap, lookup_seq_lt by exact H.
  reflexivity.
Qed.

(** C9. On a non-empty frame with a timestamp column that converts and a
    temp_antarctic column, the chart fits the line on the row indices
    0 .. n-1 against the temp_antarctic column (the timestamps are not
    handed to the fit), and for the slope and intercept it gets back the
    i-th point of the line it draws and stores as best_fit_line is
    slope * i + intercept. *)
Theorem trend_line_fits_row_indices (fr : DataFrame) (ts ts' ys : list cell)
        (fit : LinregressResult) :
  df_empty fr = false ->
  find_column (columns fr) "timestamp" = Some ts ->
  find_column (columns fr) "temp_antarctic" = Some ys ->
  to_datetime ts = Ok ts' ->
  length ts' = nrows fr ->
  linregress (range (nrows fr)) ys = Ok fit ->
  let line := map (fitted_point fit) (range (nrows fr)) in
  exists fr' fig,
    display_plot_on to_datetime linregress fr = (fr', Ok fig)
    /\ find_column (columns fr') "best_fit_line" = Some line
    /\ find_column (columns fr') "temp_antarctic" = Some ys
    /\ fig_traces fig
       = [ {| trace_x := ts'; trace_y := ys;
              trace_mode := "markers"; trace_name := "" |};
           {| trace_x := ts'; trace_y := line;
              trace_mode := "lines"; trace_name := "Regression Line" |} ]
    /\ (forall i, i < nrows fr ->
          range (nrows fr) !! i = Some (Z.of_nat i)
          /\ line !! i
             = Some (Some (VFloat
                 (float_add (float_mul (slope fit) (float_of_int (Z.of_nat i)))
                            (intercept fit))))).
Proof.
  intros Hne Hts Hys Htd Hlen Hfit line.
  set (fr1 := {| nrows := nrows fr;
                 columns := replace_column (columns fr) "timestamp" ts' |}).
  set (fr2 := {| nrows := nrows fr;
                 columns := replace_column (columns fr1) "best_fit_line" line |}).
  assert (Hts1 : find_column (columns fr1) "timestamp" = Some ts')
    by apply find_replace_same.
  assert (Hys1 : find_column (columns fr1) "temp_antarctic" = Some ys).
  { simpl. rewrite find_replace_other; [exact Hys | discriminate]. }
  assert (Hts2 : find_column (columns fr2) "timestamp" = Some ts').
  { simpl. rewrite find_replace_other; [exact Hts1 | discriminate]. }
  assert (Hys2 : find_column (columns fr2) "temp_antarctic" = Some ys).
  { simpl. rewrite find_replace_other; [exact Hys1 | discriminate]. }
  assert (Hline2 : find_column (columns fr2) "best_fit_line" = Some line)
    by apply find_replace_same.
  exists fr2. eexists. split.
  { unfold display_plot_on. rewrite Hne. simpl. unfold plot_and_fit.
    erewrite bind_ok
      by (unfold read_column, get_column; rewrite Hts; reflexivity).
    erewrite bind_ok by (unfold lift; rewrite Htd; reflexivity).
    erewrite (bind_ok _ _ fr fr1)
      by (unfold write_column, set_column;
          rewrite Hlen, Nat.eqb_refl; reflexivity).
    erewrite bind_ok
      by (unfold px_scatter; rewrite Hts1, Hys1; reflexivity).
    erewrite bind_ok by reflexivity.
    erewrite bind_ok
      by (unfold read_column, get_column; rewrite Hys1; reflexivity).
    erewrite bind_ok by (unfold lift; simpl; rewrite Hfit; reflexivity).
    erewrite (bind_ok _ _ fr1 fr2)
      by (unfold write_column, set_column; simpl;
          rewrite length_map, length_range, Nat.eqb_refl; reflexivity).
    erewrite bind_ok
      by (unfold read_column, get_column; rewrite Hts2; reflexivity).
    erewrite bind_ok
      by (unfold read_column, get_column; rewrite Hline2; reflexivity).
    reflexivity. }
  split; [exact Hline2 |]. split; [exact Hys2 |]. split; [reflexivity |].
  intros i Hi. split; [now apply lookup_range |].
  subst line. rewrite list_lookup_fmap, (lookup_range _ _ Hi). reflexivity.
Qed.

(** What the chart leaves in the frame it was handed: the frame of the
    tuple, which had no such column, holds a best_fit_line column
    afterwards. *)
Lemma display_plot_writes_shared_frame (s : Store) (snap : Snapshot)
      (fr : DataFrame) (fig : Figure) :
  deref_frame s (df snap) = Some fr ->
  fst (display_plot to_datetime linregress snap s) = Ok fig ->
  exists fr' line,
    deref_frame (snd (display_plot to_datetime linregress snap s)) (df snap)
    = Some fr'
    /\ find_column (columns fr') "best_fit_line" = Some line.
Proof.
  intros Hfr. unfold display_plot. rewrite Hfr.
  destruct (display_plot_on to_datetime linregress fr) as [fr' r] eqn:E.
  simpl. intros ->. exists fr'.
  assert (Hlook : deref_frame
                    {| deque_items := deque_items s;
                       frames := <[df snap := fr']> (frames s) |} (df snap)
                  = Some fr').
  { unfold deref_frame. simpl. apply list_lookup_insert_eq.
    eapply lookup_lt_Some. exact Hfr. }
  revert E. unfold display_plot_on.
  destruct (df_empty fr); simpl; [discriminate |].
  unfold plot_and_fit, mbind, frame_op_bind, read_column, lift, write_column,
    px_scatter, frame_len, mret, frame_op_ret.
  repeat match goal with
         | |- context [match ?x with _ => _ end] => destruct x eqn:?
         end; try discriminate.
  intros [= -> _].
  match goal with
  | H : get_column fr' "best_fit_line" = Ok ?l |- _ =>
      exists l; split; [exact Hlook |];
      unfold get_column in H;
      destruct (find_column (columns fr') "best_fit_line");
      [now injection H as -> | discriminate]
  end.
Qed.

End RuntimeProperties.

Lemma trend_line_fits_row_indices_witness :
  let line := map (fitted_point Sample.fit2) (range (nrows Sample.frame2)) in
  exists fr' fig,
    display_plot_on Sample.to_datetime Sample.least_squares Sample.frame2
    = (fr', Ok fig)
    /\ find_column (columns fr') "best_fit_line" = Some line
    /\ find_column (columns fr') "temp_antarctic" = Some Sample.ys2
    /\ fig_traces fig
       = [ {| trace_x := Sample.ts2'; trace_y := Sample.ys2;
              trace_mode := "markers"; trace_name := "" |};
           {| trace_x := Sample.ts2'; trace_y := line;
              trace_mode := "lines"; trace_name := "Regression Line" |} ]
    /\ (forall i, i < nrows Sample.frame2 ->
          range (nrows Sample.frame2) !! i = Some (Z.of_nat i)
          /\ line !! i
             = Some (Some (VFloat
                 (float_add (float_mul (slope Sample.fit2)
                                       (float_of_int (Z.of_nat i)))
                            (intercept Sample.fit2))))).
Proof.
  apply (trend_line_fits_row_indices Sample.to_datetime Sample.least_squares
           Sample.frame2 Sample.ts2 Sample.ts2' Sample.ys2 Sample.fit2);
    vm_compute; reflexivity.
Defined.

(** ** A returned tuple after it was returned *)

Lemma returned_deque_follows_buffer (s : Store) (d1 d2 : Draw) :
  let r1 := reactive_calc_combined d1 s in
  let r2 := reactive_calc_combined d2 (snd r1) in
  deref_deque (snd r2) (deque_snapshot (fst r1))
  = deque_append DEQUE_SIZE (deref_deque (snd r1) (deque_snapshot (fst r1)))
                 (new_dictionary_entry d2).
Proof. reflexivity. Qed.

(** C6, on the code.  The first component of the tuple is the deque itself,
    not a copy: the tuple returned by the first recomputation showed one
    reading when it was returned and shows two after the next
    recomputation.  And the chart writes into the frame of the tuple it is
    handed: that frame had the three columns of a reading with text
    timestamps, and afterwards has a fourth column, best_fit_line, and
    datetimes for timestamps.  The latest entry is left as it was. *)
Theorem returned_snapshot_is_mutated :
  let r1 := reactive_calc_combined Sample.draw1 initial_store in
  let snap1 := fst r1 in
  let r2 := reactive_calc_combined Sample.draw2 (snd r1) in
  let charted :=
    snd (display_plot Sample.to_datetime Sample.least_squares snap1 (snd r1)) in
  deref_deque (snd r1) (deque_snapshot snap1)
    = [new_dictionary_entry Sample.draw1]
  /\ deref_deque (snd r2) (deque_snapshot snap1)
     = [new_dictionary_entry Sample.draw1; new_dictionary_entry Sample.draw2]
  /\ deref_deque (snd r2) (deque_snapshot snap1)
     <> deref_deque (snd r1) (deque_snapshot snap1)
  /\ option_map (fun fr => map fst (columns fr)) (deref_frame (snd r1) (df snap1))
     = Some ["temp_antarctic"; "temp_arctic"; "timestamp"]
  /\ option_map (fun fr => map fst (columns fr)) (deref_frame charted (df snap1))
     = Some ["temp_antarctic"; "temp_arctic"; "timestamp"; "best_fit_line"]
  /\ deref_frame charted (df snap1) <> deref_frame (snd r1) (df snap1).
Proof.
  vm_compute. repeat split; try reflexivity; discriminate.
Qed.

(** * Further properties of the code *)

(** ** The texts of the two temperature boxes *)

Lemma repr_tenths_one_decimal (k : Z) :
  (-200 <= k <= -150)%Z ->
  one_decimal_text (repr_float (Finite (Qmake k 10)) ++ " C")%string = true.
Proof.
  intros H.
  assert (E : exists n : nat, n <= 50 /\ k = (-200 + Z.of_nat n)%Z).
  { exists (Z.to_nat (k + 200)). split; lia. }
  destruct E as (n & Hn & ->). clear H.
  do 51 (destruct n as [| n]; [vm_compute; reflexivity |]).
  lia.
Qed.

Lemma py_round_1_tenths (x : Q) (lo hi : Z) :
  (inject_Z lo <= x)%Q -> (x <= inject_Z hi)%Q ->
  exists k : Z, py_round x 1 = Qmake k 10 /\ (lo * 10 <= k <= hi * 10)%Z.
Proof.
  intros Hlo Hhi. exists (round_half_even (x * 10)%Q).
  split; [apply py_round_1 |].
  apply round_half_even_range;
    rewrite inject_Z_mult; change (inject_Z 10) with 10%Q; lra.
Qed.

(** X1. With the draws of [random()] in [0, 1), the two temperature boxes
    never raise on the tuple an invocation returns, and each shows a text
    of the shape [-dd.d C]: a minus sign, two digits, a point, exactly one
    decimal digit, and the unit. *)
Theorem temperature_boxes_show_one_decimal (d : Draw) (s : Store) :
  (0 <= random_antarctic d)%Q -> (random_antarctic d < 1)%Q ->
  (0 <= random_arctic d)%Q -> (random_arctic d < 1)%Q ->
  let snap := fst (reactive_calc_combined d s) in
  (exists txt, display_temp_antarctic snap = Ok txt
               /\ one_decimal_text txt = true)
  /\ (exists txt, display_temp_arctic snap = Ok txt
                  /\ one_decimal_text txt = true).
Proof.
  intros Ha0 Ha1 Hr0 Hr1. simpl. split.
  - destruct (py_round_1_tenths (uniform (-18) (-16) (random_antarctic d))
                (-18) (-16)) as (k & Hk & Hrange);
      try (apply (uniform_range (-18) (-16)); trivial; lra).
    eexists. split; [reflexivity |].
    unfold temp_antarctic_of. rewrite Hk. cbn [format_value].
    apply repr_tenths_one_decimal. lia.
  - destruct (py_round_1_tenths (uniform (-20) (-15) (random_arctic d))
                (-20) (-15)) as (k & Hk & Hrange);
      try (apply (uniform_range (-20) (-15)); trivial; lra).
    eexists. split; [reflexivity |].
    unfold temp_arctic_of. rewrite Hk. cbn [format_value].
    apply repr_tenths_one_decimal. lia.
Qed.

Lemma temperature_boxes_show_one_decimal_witness :
  let snap := fst (reactive_calc_combined Sample.draw2 initial_store) in
  (exists txt, display_temp_antarctic snap = Ok txt
               /\ one_decimal_text txt = true)
  /\ (exists txt, display_temp_arctic snap = Ok txt
                  /\ one_decimal_text txt = true).
Proof.
  apply (temperature_boxes_show_one_decimal Sample.draw2 initial_store);
    vm_compute; congruence.
Defined.

(** ** What the comparison does on other dicts *)

(** X2. The failures of [compare_temperatures], in the order of its
    statements: without a temp_arctic entry it raises KeyError for that
    key, whatever else the dict holds; with it but without temp_antarctic
    it raises KeyError for temp_antarctic; a float against a text raises
    TypeError; and two floats never raise, a NaN on either side giving the
    Antarctic branch. *)
Theorem compare_temperatures_failures (r : frame_ref) (e : dict) :
  (dict_get e "temp_arctic" = None ->
   compare_temperatures (tuple_with r e) = Raise (KeyError "temp_arctic"))
  /\ (forall v, dict_get e "temp_arctic" = Some v ->
        dict_get e "temp_antarctic" = None ->
        compare_temperatures (tuple_with r e)
        = Raise (KeyError "temp_antarctic"))
  /\ (forall x t, dict_get e "temp_arctic" = Some (VFloat x) ->
        dict_get e "temp_antarctic" = Some (VStr t) ->
        compare_temperatures (tuple_with r e) = Raise TypeError)
  /\ (forall x t, dict_get e "temp_arctic" = Some (VStr t) ->
        dict_get e "temp_antarctic" = Some (VFloat x) ->
        compare_temperatures (tuple_with r e) = Raise TypeError)
  /\ (forall x y, dict_get e "temp_arctic" = Some (VFloat x) ->
        dict_get e "temp_antarctic" = Some (VFloat y) ->
        exists txt, compare_temperatures (tuple_with r e) = Ok txt)
  /\ (forall x y, dict_get e "temp_arctic" = Some (VFloat x) ->
        dict_get e "temp_antarctic" = Some (VFloat y) ->
        x = NaN \/ y = NaN ->
        compare_temperatures (tuple_with r e)
        = Ok ("Antarctic is colder: " ++ repr_float y ++ "°C vs "
                ++ repr_float x ++ "°C")%string).
Proof.
  unfold compare_temperatures, tuple_with, subscript. simpl.
  repeat split.
  - intros ->. reflexivity.
  - intros v -> ->. reflexivity.
  - intros x t -> ->. reflexivity.
  - intros x t -> ->. reflexivity.
  - intros x y -> ->. simpl. destruct (float_lt x y); eauto.
  - intros x y -> -> [-> | ->]; simpl; [reflexivity |].
    destruct x; reflexivity.
Qed.

Lemma compare_temperatures_failures_witness :
  compare_temperatures (tuple_with 0 [("timestamp", VStr "t")])
  = Raise (KeyError "temp_arctic").
Proof.
  apply (compare_temperatures_failures 0 [("timestamp", VStr "t")]).
  reflexivity.
Defined.

(** ** What the statements of the chart keep of a frame *)

Lemma preserves_bind {A B : Type} (P : DataFrame -> Prop) (m : frame_op A)
      (k : A -> frame_op B) :
  preserves P m -> (forall a, preserves P (k a)) -> preserves P (m ≫= k).
Proof.
  intros Hm Hk fr H. unfold mbind, frame_op_bind.
  specialize (Hm fr H). destruct (m fr) as [fr' [a | e]]; simpl in *.
  - now apply Hk.
  - exact Hm.
Qed.

Lemma preserves_ret {A : Type} (P : DataFrame -> Prop) (a : A) :
  preserves P (mret a : frame_op A).
Proof. intros fr H. exact H. Qed.

Lemma preserves_lift {A : Type} (P : DataFrame -> Prop) (r : result A) :
  preserves P (lift r).
Proof. intros fr H. exact H. Qed.

Lemma preserves_read_column (P : DataFrame -> Prop) (k : string) :
  preserves P (read_column k).
Proof. intros fr H. exact H. Qed.

Lemma preserves_frame_len (P : DataFrame -> Prop) : preserves P frame_len.
Proof. intros fr H. exact H. Qed.

Lemma preserves_px_scatter (P : DataFrame -> Prop) (xk yk t xl yl : string) :
  preserves P (px_scatter xk yk t xl yl).
Proof.
  intros fr H. unfold px_scatter.
  destruct (find_column (columns fr) xk), (find_column (columns fr) yk);
    exact H.
Qed.

Lemma preserves_write_column (P : DataFrame -> Prop) (k : string)
      (c : list cell) :
  (forall fr fr', P fr -> set_column fr k c = Ok fr' -> P fr') ->
  preserves P (write_column k c).
Proof.
  intros Hset fr H. unfold write_column.
  destruct (set_column fr k c) as [fr' |] eqn:E; simpl; [| exact H].
  eapply Hset; eauto.
Qed.

Lemma Forall_replace_column (P : string * list cell -> Prop)
      (cols : list (string * list cell)) (k : string) (c : list cell) :
  Forall P cols -> P (k, c) -> Forall P (replace_column cols k c).
Proof.
  intros H Hk. induction H as [| [k' c'] cols Hx Hrest IH]; simpl.
  - constructor; [exact Hk | constructor].
  - destruct (String.eqb k' k); constructor; assumption.
Qed.

Lemma find_replace_is_Some (cols : list (string * list cell)) (k k' : string)
      (c : list cell) :
  is_Some (find_column cols k') ->
  is_Some (find_column (replace_column cols k c) k').
Proof.
  intros H. destruct (String.eqb_spec k k') as [-> | Hne].
  - rewrite find_replace_same. eauto.
  - now rewrite find_replace_other.
Qed.

Lemma set_column_frame_ok (fr fr' : DataFrame) (k : string) (c : list cell) :
  frame_ok fr -> set_column fr k c = Ok fr' -> frame_ok fr'.
Proof.
  intros (Hn & Hrect & Hts & Hys). unfold set_column.
  destruct (Nat.eqb_spec (length c) (nrows fr)) as [Hlen |]; [| discriminate].
  intros [= <-]. unfold frame_ok. simpl.
  split; [exact Hn |]. split.
  - apply Forall_replace_column; [exact Hrect | exact Hlen].
  - split; now apply find_replace_is_Some.
Qed.

Lemma make_DataFrame_rectangular (rows : list dict) :
  Forall (fun kc => length (snd kc) = nrows (make_DataFrame rows))
         (columns (make_DataFrame rows)).
Proof.
  unfold make_DataFrame. simpl. apply Forall_fmap, Forall_forall.
  intros k _. simpl. apply length_map.
Qed.

Lemma length_deque_append_le {A : Type} (m : nat) (l : list A) (x : A) :
  length l <= m -> 0 < m -> length (deque_append m l x) <= m.
Proof.
  intros Hl Hm. unfold deque_append.
  destruct (Nat.ltb_spec m (length (l ++ [x]))) as [Hlt | Hge]; [| exact Hge].
  rewrite length_app in Hlt. simpl in Hlt.
  destruct l as [| a l]; simpl in *; [lia |].
  rewrite length_app. simpl. lia.
Qed.

Lemma make_DataFrame_frame_ok (rows : list dict) :
  Forall is_reading rows -> rows <> [] -> length rows <= DEQUE_SIZE ->
  frame_ok (make_DataFrame rows).
Proof.
  intros H Hne Hlen. unfold frame_ok.
  split. { simpl. destruct rows; [congruence | simpl in *; lia]. }
  split; [apply make_DataFrame_rectangular |].
  rewrite (make_DataFrame_readings rows H Hne). simpl. eauto.
Qed.

(** X4. A recomputation builds its frame as a new object: the reference
    it returns named no frame before, one frame more exists afterwards,
    and every frame that existed is still there under its reference,
    unchanged. *)
Theorem recomputation_allocates_fresh_frame (d : Draw) (s : Store) :
  let snap := fst (reactive_calc_combined d s) in
  let s' := snd (reactive_calc_combined d s) in
  deref_frame s (df snap) = None
  /\ length (frames s') = S (length (frames s))
  /\ (forall j fr, deref_frame s j = Some fr ->
        j <> df snap /\ deref_frame s' j = Some fr).
Proof.
  simpl. unfold deref_frame. simpl. split.
  { apply lookup_ge_None_2. lia. }
  split. { rewrite length_app. simpl. lia. }
  intros j fr Hj. pose proof (lookup_lt_Some _ _ _ Hj) as Hlt. split; [lia |].
  rewrite lookup_app_l by exact Hlt. exact Hj.
Qed.

Section ReachableStates.

Variable to_datetime : list cell -> result (list cell).
Variable linregress : list Z -> list cell -> result LinregressResult.

Lemma plot_and_fit_preserves (P : DataFrame -> Prop) :
  (forall c, preserves P (write_column "timestamp" c)) ->
  (forall c, preserves P (write_column "best_fit_line" c)) ->
  preserves P (plot_and_fit to_datetime linregress).
Proof.
  intros Hts Hbf. unfold plot_and_fit.
  repeat (apply preserves_bind;
          [first [ apply preserves_read_column | apply preserves_lift
                 | apply Hts | apply Hbf | apply preserves_px_scatter
                 | apply preserves_frame_len ]
          | intros ?]).
  apply preserves_ret.
Qed.

Lemma display_plot_on_preserves (P : DataFrame -> Prop) :
  (forall c, preserves P (write_column "timestamp" c)) ->
  (forall c, preserves P (write_column "best_fit_line" c)) ->
  preserves P (display_plot_on to_datetime linregress).
Proof.
  intros Hts Hbf fr H. unfold display_plot_on.
  destruct (negb (df_empty fr)); [| exact H].
  now apply plot_and_fit_preserves.
Qed.

Lemma display_plot_on_frame_ok :
  preserves frame_ok (display_plot_on to_datetime linregress).
Proof.
  apply display_plot_on_preserves; intros c;
    apply preserves_write_column; intros fr fr' H E;
    eapply set_column_frame_ok; eauto.
Qed.

Lemma render_after_call (c : consumer) (d : Draw) (a : App) :
  let a1 := snd (call_reactive_calc d a) in
  let a2 := snd (render to_datetime linregress c d a) in
  deque_items (store a2) = deque_items (store a1)
  /\ length (frames (store a2)) = length (frames (store a1))
  /\ cache a2 = cache a1.
Proof.
  unfold render. destruct (call_reactive_calc d a) as [snap a1]. simpl.
  destruct c; simpl; auto.
  unfold display_plot.
  destruct (deref_frame (store a1) (df snap)) as [fr |]; simpl; auto.
  destruct (display_plot_on to_datetime linregress fr); simpl.
  rewrite length_insert. auto.
Qed.

Lemma call_reactive_calc_state_ok (d : Draw) (a : App) :
  well_formed a -> state_ok a -> state_ok (snd (call_reactive_calc d a)).
Proof.
  intros (Hb & _ & _) (Hlen & Hfr). unfold call_reactive_calc.
  destruct (cache a); simpl; [split; assumption |].
  assert (H5 : 0 < DEQUE_SIZE) by (unfold DEQUE_SIZE; lia).
  split; simpl.
  - now apply length_deque_append_le.
  - apply Forall_app. split; [exact Hfr |].
    constructor; [| constructor].
    apply make_DataFrame_frame_ok.
    + apply Forall_deque_append; [exact Hb |].
      apply new_dictionary_entry_is_reading.
    + intros E.
      pose proof (last_deque_append DEQUE_SIZE (deque_items (store a))
                    (new_dictionary_entry d) H5) as Hl.
      rewrite E in Hl. discriminate.
    + now apply length_deque_append_le.
Qed.

Lemma render_state_ok (c : consumer) (d : Draw) (a : App) :
  well_formed a -> state_ok a ->
  state_ok (snd (render to_datetime linregress c d a)).
Proof.
  intros Hwf Hok. pose proof (call_reactive_calc_state_ok d a Hwf Hok) as H.
  unfold render. destruct (call_reactive_calc d a) as [snap a1]. simpl in H.
  destruct c; simpl; trivial.
  destruct H as (Hlen & Hfr). unfold display_plot.
  destruct (deref_frame (store a1) (df snap)) as [fr |] eqn:E; simpl.
  - destruct (display_plot_on to_datetime linregress fr) as [fr' r] eqn:Ep.
    simpl. split; simpl; [exact Hlen |].
    apply Forall_insert; [exact Hfr |].
    pose proof (display_plot_on_frame_ok fr) as Hk. rewrite Ep in Hk.
    apply Hk. unfold deref_frame in E.
    eapply Forall_lookup_1 in Hfr; eauto.
  - split; assumption.
Qed.

Lemma run_invariants (tr : list event) (a : App) :
  well_formed a -> state_ok a ->
  well_formed (run to_datetime linregress tr a)
  /\ state_ok (run to_datetime linregress tr a).
Proof.
  revert a. induction tr as [| e tr IH]; intros a Hwf Hok; simpl; [auto |].
  apply IH.
  - now apply step_well_formed.
  - destruct e as [| c d]; simpl.
    + exact Hok.
    + now apply render_state_ok.
Qed.

Lemma state_ok_initial : state_ok initial_app.
Proof. split; simpl; [unfold DEQUE_SIZE; lia | constructor]. Qed.

Lemma reachable_invariants (tr : list event) :
  well_formed (run to_datetime linregress tr initial_app)
  /\ state_ok (run to_datetime linregress tr initial_app).
Proof.
  apply run_invariants; [apply well_formed_initial | apply state_ok_initial].
Qed.

(** *** Which renders generate a reading *)

Lemma run_generates (tr : list event) :
  forall (a : App) (ds : list Draw),
    deque_items (store a)
    = drop (length ds - DEQUE_SIZE) (map new_dictionary_entry ds) ->
    length (frames (store a)) = length ds ->
    let ds' := ds ++ recomputations (cached a) tr in
    deque_items (store (run to_datetime linregress tr a))
    = drop (length ds' - DEQUE_SIZE) (map new_dictionary_entry ds')
    /\ length (frames (store (run to_datetime linregress tr a))) = length ds'.
Proof.
  induction tr as [| e tr IH]; intros a ds Hb Hf; simpl.
  - now rewrite app_nil_r.
  - destruct e as [| c d]; simpl.
    + apply (IH (invalidate a) ds); assumption.
    + destruct (render_after_call c d a) as (Hd & Hl & Hc).
      unfold cached. unfold call_reactive_calc in Hd, Hl, Hc.
      destruct (cache a) as [snap |] eqn:E; simpl in Hd, Hl, Hc.
      * specialize (IH (snd (render to_datetime linregress c d a)) ds).
        unfold cached in IH. rewrite Hc, E in IH.
        apply IH; congruence.
      * specialize (IH (snd (render to_datetime linregress c d a)) (ds ++ [d])).
        unfold cached in IH. rewrite Hc in IH.
        rewrite <- app_assoc in IH. simpl in IH. apply IH.
        -- rewrite Hd, Hb, map_app. simpl.
           rewrite <- (length_map new_dictionary_entry ds).
           rewrite deque_append_suffix by (unfold DEQUE_SIZE; lia).
           now rewrite !length_app, !length_map.
        -- rewrite Hl, !length_app, Hf. simpl. lia.
Qed.

(** X3. Readings are generated at the first render after start-up and at
    the first render after each invalidation, and nowhere else: after any
    sequence of renders and invalidations the buffer holds the last five
    readings of those renders' draws, in order, its length is the smaller
    of their number and 5, and one frame was built for each. *)
Theorem readings_follow_recomputations (tr : list event) :
  let ds := recomputations false tr in
  let a := run to_datetime linregress tr initial_app in
  deque_items (store a) = drop (length ds - 5) (map new_dictionary_entry ds)
  /\ length (deque_items (store a)) = Nat.min (length ds) 5
  /\ length (frames (store a)) = length ds.
Proof.
  intros ds a.
  destruct (run_generates tr initial_app []) as [Hb Hf]; try reflexivity.
  simpl in Hb, Hf. change (cached initial_app) with false in Hb, Hf.
  fold ds in Hb, Hf. fold a in Hb, Hf. unfold DEQUE_SIZE in Hb.
  split; [exact Hb |]. split; [| exact Hf].
  rewrite Hb, length_drop, length_map. lia.
Qed.

(** *** Who writes what *)


(** X6. [display_plot] writes to the frame of the tuple it is handed and to
    nothing else: the buffer, the number of frames and every other frame
    are as before. *)
Theorem display_plot_touches_only_its_frame (snap : Snapshot) (s : Store) :
  let s' := snd (display_plot to_datetime linregress snap s) in
  deque_items s' = deque_items s
  /\ length (frames s') = length (frames s)
  /\ (forall j, j <> df snap -> deref_frame s' j = deref_frame s j).
Proof.
  unfold display_plot.
  destruct (deref_frame s (df snap)) as [fr |]; simpl; [| auto].
  destruct (display_plot_on to_datetime linregress fr) as [fr' r]. simpl.
  split; [reflexivity |]. split; [apply length_insert |].
  intros j Hj. unfold deref_frame. simpl.
  apply list_lookup_insert_ne. congruence.
Qed.

(** X7. Whatever the two library routines do, and whether the chart
    succeeds or raises, it leaves the number of rows of the frame and every
    column other than timestamp and best_fit_line as they were; the two
    temperature columns in particular. *)
Theorem chart_keeps_rows_and_other_columns (fr : DataFrame) :
  let fr' := fst (display_plot_on to_datetime linregress fr) in
  nrows fr' = nrows fr
  /\ (forall k, k <> "timestamp" -> k <> "best_fit_line" ->
        find_column (columns fr') k = find_column (columns fr) k)
  /\ find_column (columns fr') "temp_antarctic"
     = find_column (columns fr) "temp_antarctic"
  /\ find_column (columns fr') "temp_arctic"
     = find_column (columns fr) "temp_arctic".
Proof.
  set (P := fun f : DataFrame =>
              nrows f = nrows fr
              /\ forall k, k <> "timestamp" -> k <> "best_fit_line" ->
                   find_column (columns f) k = find_column (columns fr) k).
  assert (Hw : forall k0, (k0 = "timestamp" \/ k0 = "best_fit_line") ->
                 forall c, preserves P (write_column k0 c)).
  { intros k0 Hk0 c. apply preserves_write_column.
    intros f f' [Hn Hcols]. unfold set_column.
    destruct (length c =? nrows f); [| discriminate].
    intros [= <-]. split; [exact Hn |]. simpl. intros k H1 H2.
    rewrite find_replace_other; [now apply Hcols |].
    destruct Hk0; congruence. }
  assert (HP : P (fst (display_plot_on to_datetime linregress fr))).
  { apply display_plot_on_preserves; [apply Hw | apply Hw | split]; auto. }
  destruct HP as [Hn Hcols]. simpl.
  split; [exact Hn |]. split; [exact Hcols |].
  split; apply Hcols; discriminate.
Qed.

(** *** How the chart ends *)

Lemma bind_raise {A B : Type} (m : frame_op A) (k : A -> frame_op B)
      (fr fr' : DataFrame) (e : exn) :
  m fr = (fr', Raise e) -> (m ≫= k) fr = (fr', Raise e).
Proof. unfold mbind, frame_op_bind. now intros ->. Qed.

Lemma plot_and_fit_before_conversion (fr : DataFrame) :
  (find_column (columns fr) "timestamp" = None ->
   plot_and_fit to_datetime linregress fr = (fr, Raise (KeyError "timestamp")))
  /\ (forall ts e,
        find_column (columns fr) "timestamp" = Some ts ->
        to_datetime ts = Raise e ->
        plot_and_fit to_datetime linregress fr = (fr, Raise e))
  /\ (forall ts ts',
        find_column (columns fr) "timestamp" = Some ts ->
        to_datetime ts = Ok ts' ->
        length ts' <> nrows fr ->
        plot_and_fit to_datetime linregress fr = (fr, Raise ValueError)).
Proof.
  split; [| split].
  - intros Hts. unfold plot_and_fit. apply bind_raise.
    unfold read_column, get_column. now rewrite Hts.
  - intros ts e Hts Htd. unfold plot_and_fit.
    erewrite bind_ok
      by (unfold read_column, get_column; rewrite Hts; reflexivity).
    apply bind_raise. unfold lift. now rewrite Htd.
  - intros ts ts' Hts Htd Hlen. unfold plot_and_fit.
    erewrite bind_ok
      by (unfold read_column, get_column; rewrite Hts; reflexivity).
    erewrite bind_ok by (unfold lift; rewrite Htd; reflexivity).
    apply bind_raise. unfold write_column, set_column.
    apply Nat.eqb_neq in Hlen. now rewrite Hlen.
Qed.

Lemma plot_and_fit_after_conversion (fr : DataFrame) (ts ts' ys : list cell) :
  find_column (columns fr) "timestamp" = Some ts ->
  find_column (columns fr) "temp_antarctic" = Some ys ->
  to_datetime ts = Ok ts' ->
  length ts' = nrows fr ->
  let fr1 := {| nrows := nrows fr;
                columns := replace_column (columns fr) "timestamp" ts' |} in
  (forall e, linregress (range (nrows fr)) ys = Raise e ->
             plot_and_fit to_datetime linregress fr = (fr1, Raise e))
  /\ (forall fit, linregress (range (nrows fr)) ys = Ok fit ->
        exists fig,
          plot_and_fit to_datetime linregress fr
          = ({| nrows := nrows fr;
                columns := replace_column (columns fr1) "best_fit_line"
                             (map (fitted_point fit) (range (nrows fr))) |},
             Ok fig)).
Proof.
  intros Hts Hys Htd Hlen fr1.
  assert (Hts1 : find_column (columns fr1) "timestamp" = Some ts')
    by apply find_replace_same.
  assert (Hys1 : find_column (columns fr1) "temp_antarctic" = Some ys).
  { simpl. rewrite find_replace_other; [exact Hys | discriminate]. }
  split.
  - intros e Hfit. unfold plot_and_fit.
    erewrite bind_ok
      by (unfold read_column, get_column; rewrite Hts; reflexivity).
    erewrite bind_ok by (unfold lift; rewrite Htd; reflexivity).
    erewrite (bind_ok _ _ fr fr1)
      by (unfold write_column, set_column;
          rewrite Hlen, Nat.eqb_refl; reflexivity).
    erewrite bind_ok
      by (unfold px_scatter; rewrite Hts1, Hys1; reflexivity).
    erewrite bind_ok by reflexivity.
    erewrite bind_ok
      by (unfold read_column, get_column; rewrite Hys1; reflexivity).
    apply bind_raise. unfold lift. simpl. now rewrite Hfit.
  - intros fit Hfit.
    set (line := map (fitted_point fit) (range (nrows fr))).
    set (fr2 := {| nrows := nrows fr;
                   columns := replace_column (columns fr1) "best_fit_line" line |}).
    assert (Hts2 : find_column (columns fr2) "timestamp" = Some ts').
    { simpl. rewrite find_replace_other; [exact Hts1 | discriminate]. }
    assert (Hline2 : find_column (columns fr2) "best_fit_line" = Some line)
      by apply find_replace_same.
    eexists. unfold plot_and_fit.
    erewrite bind_ok
      by (unfold read_column, get_column; rewrite Hts; reflexivity).
    erewrite bind_ok by (unfold lift; rewrite Htd; reflexivity).
    erewrite (bind_ok _ _ fr fr1)
      by (unfold write_column, set_column;
          rewrite Hlen, Nat.eqb_refl; reflexivity).
    erewrite bind_ok
      by (unfold px_scatter; rewrite Hts1, Hys1; reflexivity).
    erewrite bind_ok by reflexivity.
    erewrite bind_ok
      by (unfold read_column, get_column; rewrite Hys1; reflexivity).
    erewrite bind_ok by (unfold lift; simpl; rewrite Hfit; reflexivity).
    erewrite (bind_ok _ _ fr1 fr2)
      by (unfold write_column, set_column; simpl;
          rewrite length_map, length_range, Nat.eqb_refl; reflexivity).
    erewrite bind_ok
      by (unfold read_column, get_column; rewrite Hts2; reflexivity).
    erewrite bind_ok
      by (unfold read_column, get_column; rewrite Hline2; reflexivity).
    reflexivity.
Qed.

(** X8. When the fit raises, [display_plot] raises the same exception, and
    the frame it was handed keeps what was written before the fit: the
    timestamp column is the converted one and no best_fit_line column was
    written. *)
Theorem failed_fit_leaves_converted_timestamps (fr : DataFrame)
        (ts ts' ys : list cell) (e : exn) :
  df_empty fr = false ->
  find_column (columns fr) "timestamp" = Some ts ->
  find_column (columns fr) "temp_antarctic" = Some ys ->
  to_datetime ts = Ok ts' ->
  length ts' = nrows fr ->
  linregress (range (nrows fr)) ys = Raise e ->
  display_plot_on to_datetime linregress fr
  = ({| nrows := nrows fr;
        columns := replace_column (columns fr) "timestamp" ts' |},
     Raise e)
  /\ find_column
       (columns (fst (display_plot_on to_datetime linregress fr)))
       "best_fit_line"
     = find_column (columns fr) "best_fit_line".
Proof.
  intros Hne Hts Hys Htd Hlen Hfit.
  destruct (plot_and_fit_after_conversion fr ts ts' ys Hts Hys Htd Hlen)
    as [Hraise _].
  unfold display_plot_on. rewrite Hne. simpl. rewrite (Hraise e Hfit).
  split; [reflexivity |]. simpl.
  apply find_replace_other. discriminate.
Qed.


(** *** In the states the application reaches *)

Lemma render_plot_output (d : Draw) (a : App) (fr : DataFrame) :
  deref_frame (store (snd (call_reactive_calc d a)))
              (df (fst (call_reactive_calc d a))) = Some fr ->
  df_empty fr = false ->
  fst (render to_datetime linregress Display_plot d a)
  = Plot (snd (plot_and_fit to_datetime linregress fr)).
Proof.
  intros Hfr Hne. unfold render.
  destruct (call_reactive_calc d a) as [snap a1]. simpl in *.
  unfold display_plot. rewrite Hfr. unfold display_plot_on. rewrite Hne.
  simpl. now destruct (plot_and_fit to_datetime linregress fr).
Qed.

(** X10. The table ends with the latest reading: in every state the
    application reaches, the last row of the frame an invocation returns
    holds the two temperatures and the timestamp of the tuple's latest
    entry. *)
Theorem last_row_is_latest_reading (tr : list event) (d : Draw) :
  let a := run to_datetime linregress tr initial_app in
  let snap := fst (reactive_calc_combined d (store a)) in
  let s' := snd (reactive_calc_combined d (store a)) in
  exists fr,
    deref_frame s' (df snap) = Some fr
    /\ frame_row fr (nrows fr - 1)
       = map (fun kv => (fst kv, Some (Some (snd kv))))
             (latest_dictionary_entry snap).
Proof.
  intros a snap s'.
  destruct (reachable_invariants tr) as [(Hb & _ & _) _]. fold a in Hb.
  set (buffer := deque_append DEQUE_SIZE (deque_items (store a))
                              (new_dictionary_entry d)).
  assert (Hbuf : Forall is_reading buffer).
  { apply Forall_deque_append; [exact Hb |].
    apply new_dictionary_entry_is_reading. }
  assert (Hlast : last buffer = Some (new_dictionary_entry d)).
  { apply last_deque_append. unfold DEQUE_SIZE. lia. }
  exists (make_DataFrame buffer). split.
  { unfold deref_frame. simpl. now apply list_lookup_middle. }
  apply frame_row_readings; [exact Hbuf |].
  rewrite last_lookup in Hlast. simpl.
  replace (length buffer - 1) with (pred (length buffer)) by lia.
  exact Hlast.
Qed.

(** X11. In every state the application reaches the buffer holds at most
    five readings, and every frame, charted or not, has between one and
    five rows and one cell per row in each of its columns. *)
Theorem frames_hold_one_to_five_rows (tr : list event) :
  let a := run to_datetime linregress tr initial_app in
  length (deque_items (store a)) <= 5
  /\ (forall j fr, deref_frame (store a) j = Some fr ->
        1 <= nrows fr /\ nrows fr <= 5
        /\ Forall (fun kc => length (snd kc) = nrows fr) (columns fr)).
Proof.
  intros a. destruct (reachable_invariants tr) as [_ [Hlen Hfr]].
  fold a in Hlen, Hfr. split; [exact Hlen |].
  intros j fr Hj. unfold deref_frame in Hj.
  eapply Forall_lookup_1 in Hfr; eauto.
  destruct Hfr as ((H1 & H5) & Hrect & _). auto.
Qed.

(** X12. In every state the application reaches, the chart finds the
    columns it reads, so an exception out of [display_plot] is never its
    own: it raises exactly when the conversion of the timestamps raises or
    returns a column of another length, or when the fit raises, and
    returns a figure otherwise. *)
Theorem chart_raises_only_from_libraries (tr : list event) (d : Draw) :
  let a := run to_datetime linregress tr initial_app in
  let snap := fst (call_reactive_calc d a) in
  let a1 := snd (call_reactive_calc d a) in
  let out := fst (render to_datetime linregress Display_plot d a) in
  exists fr ts ys,
    deref_frame (store a1) (df snap) = Some fr
    /\ find_column (columns fr) "timestamp" = Some ts
    /\ find_column (columns fr) "temp_antarctic" = Some ys
    /\ match to_datetime ts with
       | Raise e => out = Plot (Raise e)
       | Ok ts' =>
           if length ts' =? nrows fr
           then match linregress (range (nrows fr)) ys with
                | Raise e => out = Plot (Raise e)
                | Ok fit => exists fig, out = Plot (Ok fig)
                end
           else out = Plot (Raise ValueError)
       end.
Proof.
  intros a snap a1 out.
  destruct (reachable_invariants tr) as [Hwf Hok]. fold a in Hwf, Hok.
  pose proof (call_reactive_calc_well_formed d a Hwf) as (_ & _ & Hc).
  pose proof (call_reactive_calc_state_ok d a Hwf Hok) as (_ & Hfr).
  fold a1 in Hc, Hfr.
  specialize (Hc snap (call_reactive_calc_cached d a)).
  destruct (lookup_lt_is_Some_2 _ _ Hc) as [fr Hlook].
  change (deref_frame (store a1) (df snap) = Some fr) in Hlook.
  assert (Hfrok : frame_ok fr).
  { unfold deref_frame in Hlook. eapply Forall_lookup_1 in Hfr; eauto. }
  destruct Hfrok as ((H1 & _) & _ & [ts Hts] & [ys Hys]).
  assert (Hne : df_empty fr = false).
  { apply df_empty_false. split; [lia |]. intros E. rewrite E in Hts.
    discriminate. }
  exists fr, ts, ys. repeat (split; [assumption |]).
  assert (Hout : out = Plot (snd (plot_and_fit to_datetime linregress fr)))
    by (apply render_plot_output; assumption).
  destruct (plot_and_fit_before_conversion fr) as (_ & Hconv & Hlen).
  destruct (to_datetime ts) as [ts' | e] eqn:Htd.
  - destruct (Nat.eqb_spec (length ts') (nrows fr)) as [Heq | Hneq].
    + destruct (plot_and_fit_after_conversion fr ts ts' ys Hts Hys Htd Heq)
        as [Hraise Hfit].
      destruct (linregress (range (nrows fr)) ys) as [fit | e] eqn:Hl.
      * destruct (Hfit fit eq_refl) as [fig Hfig].
        exists fig. now rewrite Hout, Hfig.
      * now rewrite Hout, (Hraise e eq_refl).
    + now rewrite Hout, (Hlen ts ts' Hts Htd Hneq).
  - now rewrite Hout, (Hconv ts e Hts Htd).
Qed.

(** X13. The table shows what the chart wrote: when [display_plot] has
    returned a figure, a render of [display_df] that follows in the same
    interval gives a grid on the very frame the chart wrote to, which now
    has a best_fit_line column. *)
Theorem table_shows_chart_column (a : App) (d d' : Draw) (fig : Figure) :
  fst (render to_datetime linregress Display_plot d a) = Plot (Ok fig) ->
  let a1 := snd (render to_datetime linregress Display_plot d a) in
  exists g fr line,
    render to_datetime linregress Display_df d' a1 = (Grid g, a1)
    /\ grid_data g = df (fst (call_reactive_calc d a))
    /\ deref_frame (store a1) (grid_data g) = Some fr
    /\ find_column (columns fr) "best_fit_line" = Some line.
Proof.
  unfold render at 1 2.
  pose proof (call_reactive_calc_cached d a) as Hc.
  destruct (call_reactive_calc d a) as [snap a0]. simpl in Hc. simpl.
  destruct (display_plot to_datetime linregress snap (store a0))
    as [r s'] eqn:Ep.
  simpl. intros [= ->].
  assert (Hfr : exists fr0, deref_frame (store a0) (df snap) = Some fr0).
  { revert Ep. unfold display_plot.
    destruct (deref_frame (store a0) (df snap)) as [fr0 |]; [eauto |].
    discriminate. }
  destruct Hfr as [fr0 Hfr0].
  destruct (display_plot_writes_shared_frame to_datetime linregress
              (store a0) snap fr0 fig Hfr0) as (fr & line & Hlook & Hcol).
  { now rewrite Ep. }
  rewrite Ep in Hlook. simpl in Hlook.
  exists (display_df snap), fr, line.
  split; [| auto].
  unfold render.
  erewrite call_reactive_calc_hit by (simpl; exact Hc). reflexivity.
Qed.

End ReachableStates.


Lemma failed_fit_leaves_converted_timestamps_witness :
  display_plot_on Sample.to_datetime Sample.failing_fit Sample.frame2
  = ({| nrows := nrows Sample.frame2;
        columns := replace_column (columns Sample.frame2) "timestamp"
                                  Sample.ts2' |},
     Raise ValueError)
  /\ find_column
       (columns (fst (display_plot_on Sample.to_datetime Sample.failing_fit
                                       Sample.frame2)))
       "best_fit_line"
     = find_column (columns Sample.frame2) "best_fit_line".
Proof.
  apply (failed_fit_leaves_converted_timestamps
           Sample.to_datetime Sample.failing_fit Sample.frame2
           Sample.ts2 Sample.ts2' Sample.ys2 ValueError);
    vm_compute; reflexivity.
Defined.


Lemma table_shows_chart_column_witness :
  let a1 := snd (render Sample.to_datetime Sample.least_squares Display_plot
                        Sample.draw1 initial_app) in
  exists g fr line,
    render Sample.to_datetime Sample.least_squares Display_df Sample.draw2 a1
    = (Grid g, a1)
    /\ grid_data g = df (fst (call_reactive_calc Sample.draw1 initial_app))
    /\ deref_frame (store a1) (grid_data g) = Some fr
    /\ find_column (columns fr) "best_fit_line" = Some line.
Proof.
  apply (table_shows_chart_column Sample.to_datetime Sample.least_squares
           initial_app Sample.draw1 Sample.draw2 Sample.fig1).
  vm_compute. reflexivity.
Defined.

(** ** The column labels under the chart *)

Lemma names_replace_present (cols : list (string * list cell)) (k : string)
      (c : list cell) :
  is_Some (find_column cols k) ->
  map fst (replace_column cols k c) = map fst cols.
Proof.
  induction cols as [| [k' c'] cols IH]; simpl.
  - intros [x Hx]. discriminate.
  - destruct (String.eqb_spec k' k) as [-> | Hne]; simpl; [reflexivity |].
    intros H. now rewrite IH.
Qed.

Lemma names_replace_absent (cols : list (string * list cell)) (k : string)
      (c : list cell) :
  find_column cols k = None ->
  map fst (replace_column cols k c) = map fst cols ++ [k].
Proof.
  induction cols as [| [k' c'] cols IH]; simpl; [reflexivity |].
  destruct (String.eqb k' k); [discriminate |].
  intros H. simpl. now rewrite IH.
Qed.

Lemma find_column_None_names (cols : list (string * list cell)) (k : string) :
  find_column cols k = None <-> ~ In k (map fst cols).
Proof.
  induction cols as [| [k' c'] cols IH]; simpl.
  - split; [intros _ [] | reflexivity].
  - destruct (String.eqb_spec k' k) as [-> | Hne].
    + split; [discriminate | intros H; exfalso; apply H; now left].
    + rewrite IH. split; [intros H [E | HI]; [congruence | auto] | auto].
Qed.

Section ChartColumns.

Variable to_datetime : list cell -> result (list cell).
Variable linregress : list Z -> list cell -> result LinregressResult.

(** X14. The chart never drops, renames or reorders a column, and adds at
    most one: afterwards the frame has the labels it had, in the same
    order, followed by best_fit_line if that label was not there; a frame
    that already had it (a second chart on the same tuple) keeps exactly
    its labels. *)
Theorem chart_adds_at_most_one_column (fr : DataFrame) :
  let fr' := fst (display_plot_on to_datetime linregress fr) in
  (is_Some (find_column (columns fr) "best_fit_line") ->
   map fst (columns fr') = map fst (columns fr))
  /\ (map fst (columns fr') = map fst (columns fr)
      \/ map fst (columns fr') = map fst (columns fr) ++ ["best_fit_line"]).
Proof.
  set (P := fun f : DataFrame =>
              is_Some (find_column (columns f) "timestamp")
              /\ (map fst (columns f) = map fst (columns fr)
                  \/ (find_column (columns fr) "best_fit_line" = None
                      /\ map fst (columns f)
                         = map fst (columns fr) ++ ["best_fit_line"]))).
  assert (Hfinal : forall f, P f ->
            (is_Some (find_column (columns fr) "best_fit_line") ->
             map fst (columns f) = map fst (columns fr))
            /\ (map fst (columns f) = map fst (columns fr)
                \/ map fst (columns f)
                   = map fst (columns fr) ++ ["best_fit_line"])).
  { intros f [_ [E | [Hn E]]].
    - auto.
    - split; [| auto]. intros [x Hx]. congruence. }
  destruct (find_column (columns fr) "timestamp") as [ts |] eqn:Hts.
  - apply Hfinal. apply display_plot_on_preserves.
    + intros c. apply preserves_write_column.
      intros f f' [Hs Hnames]. unfold set_column.
      destruct (length c =? nrows f); [| discriminate].
      intros [= <-]. split; simpl.
      * now apply find_replace_is_Some.
      * now rewrite names_replace_present.
    + intros c. apply preserves_write_column.
      intros f f' [Hs Hnames]. unfold set_column.
      destruct (length c =? nrows f); [| discriminate].
      intros [= <-]. split; simpl.
      * now apply find_replace_is_Some.
      * destruct (find_column (columns f) "best_fit_line") as [x |] eqn:Hbf.
        -- rewrite names_replace_present by eauto. exact Hnames.
        -- rewrite names_replace_absent by exact Hbf.
           destruct Hnames as [E | [Hn E]].
           ++ right. split; [| now rewrite E].
              apply find_column_None_names. rewrite <- E.
              now apply find_column_None_names.
           ++ exfalso. apply find_column_None_names in Hbf. apply Hbf.
              rewrite E. apply in_or_app. right. now left.
    + split; [rewrite Hts; eauto | now left].
  - assert (E : fst (display_plot_on to_datetime linregress fr) = fr).
    { unfold display_plot_on. destruct (df_empty fr); simpl; [reflexivity |].
      destruct (plot_and_fit_before_conversion to_datetime linregress fr)
        as [H _].
      now rewrite (H Hts). }
    simpl. rewrite E. auto.
Qed.

End ChartColumns.

(** ** The timestamp text *)









(** ** Charts in sequence *)

Section ChartComposition.

Variable to_datetime : list cell -> result (list cell).
Variable linregress : list Z -> list cell -> result LinregressResult.

Lemma plot_and_fit_success (fr : DataFrame) (ts ts' ys : list cell)
      (fit : LinregressResult) :
  find_column (columns fr) "timestamp" = Some ts ->
  find_column (columns fr) "temp_antarctic" = Some ys ->
  to_datetime ts = Ok ts' ->
  length ts' = nrows fr ->
  linregress (range (nrows fr)) ys = Ok fit ->
  let line := map (fitted_point fit) (range (nrows fr)) in
  plot_and_fit to_datetime linregress fr
  = (charted_frame fr ts' line, Ok (chart_figure ts' ys line)).
Proof.
  intros Hts Hys Htd Hlen Hfit line.
  set (fr1 := {| nrows := nrows fr;
                 columns := replace_column (columns fr) "timestamp" ts' |}).
  assert (Hts1 : find_column (columns fr1) "timestamp" = Some ts')
    by apply find_replace_same.
  assert (Hys1 : find_column (columns fr1) "temp_antarctic" = Some ys).
  { simpl. rewrite find_replace_other; [exact Hys | discriminate]. }
  assert (Hts2 : find_column (columns (charted_frame fr ts' line)) "timestamp"
                 = Some ts').
  { simpl. rewrite find_replace_other; [exact Hts1 | discriminate]. }
  assert (Hline2 : find_column (columns (charted_frame fr ts' line))
                               "best_fit_line" = Some line)
    by apply find_replace_same.
  unfold plot_and_fit.
  erewrite bind_ok
    by (unfold read_column, get_column; rewrite Hts; reflexivity).
  erewrite bind_ok by (unfold lift; rewrite Htd; reflexivity).
  erewrite (bind_ok _ _ fr fr1)
    by (unfold write_column, set_column;
        rewrite Hlen, Nat.eqb_refl; reflexivity).
  erewrite bind_ok
    by (unfold px_scatter; rewrite Hts1, Hys1; reflexivity).
  erewrite bind_ok by reflexivity.
  erewrite bind_ok
    by (unfold read_column, get_column; rewrite Hys1; reflexivity).
  erewrite bind_ok by (unfold lift; simpl; rewrite Hfit; reflexivity).
  erewrite (bind_ok _ _ fr1 (charted_frame fr ts' line))
    by (unfold write_column, set_column; simpl;
        rewrite length_map, length_range, Nat.eqb_refl; reflexivity).
  erewrite bind_ok
    by (unfold read_column, get_column; rewrite Hts2; reflexivity).
  erewrite bind_ok
    by (unfold read_column, get_column; rewrite Hline2; reflexivity).
  reflexivity.
Qed.

Lemma plot_and_fit_missing_y (fr : DataFrame) (ts ts' : list cell) :
  find_column (columns fr) "timestamp" = Some ts ->
  find_column (columns fr) "temp_antarctic" = None ->
  to_datetime ts = Ok ts' ->
  length ts' = nrows fr ->
  snd (plot_and_fit to_datetime linregress fr) = Raise ValueError.
Proof.
  intros Hts Hys Htd Hlen.
  set (fr1 := {| nrows := nrows fr;
                 columns := replace_column (columns fr) "timestamp" ts' |}).
  assert (Hts1 : find_column (columns fr1) "timestamp" = Some ts')
    by apply find_replace_same.
  assert (Hys1 : find_column (columns fr1) "temp_antarctic" = None).
  { simpl. rewrite find_replace_other; [exact Hys | discriminate]. }
  unfold plot_and_fit.
  erewrite bind_ok
    by (unfold read_column, get_column; rewrite Hts; reflexivity).
  erewrite bind_ok by (unfold lift; rewrite Htd; reflexivity).
  erewrite (bind_ok _ _ fr fr1)
    by (unfold write_column, set_column;
        rewrite Hlen, Nat.eqb_refl; reflexivity).
  erewrite bind_raise
    by (unfold px_scatter; rewrite Hts1, Hys1; reflexivity).
  reflexivity.
Qed.

Lemma plot_and_fit_success_inv (fr fr' : DataFrame) (fig : Figure) :
  plot_and_fit to_datetime linregress fr = (fr', Ok fig) ->
  exists ts ts' ys fit,
    find_column (columns fr) "timestamp" = Some ts
    /\ find_column (columns fr) "temp_antarctic" = Some ys
    /\ to_datetime ts = Ok ts'
    /\ length ts' = nrows fr
    /\ linregress (range (nrows fr)) ys = Ok fit
    /\ fr' = charted_frame fr ts' (map (fitted_point fit) (range (nrows fr)))
    /\ fig = chart_figure ts' ys (map (fitted_point fit) (range (nrows fr))).
Proof.
  intros H.
  destruct (plot_and_fit_before_conversion to_datetime linregress fr)
    as (Hnone & Hconv & Hlen).
  destruct (find_column (columns fr) "timestamp") as [ts |] eqn:Hts;
    [| rewrite (Hnone eq_refl) in H; discriminate].
  destruct (to_datetime ts) as [ts' | e] eqn:Htd;
    [| rewrite (Hconv ts e eq_refl Htd) in H; discriminate].
  destruct (Nat.eq_dec (length ts') (nrows fr)) as [Heq | Hneq];
    [| rewrite (Hlen ts ts' eq_refl Htd Hneq) in H; discriminate].
  destruct (find_column (columns fr) "temp_antarctic") as [ys |] eqn:Hys.
  - destruct (plot_and_fit_after_conversion to_datetime linregress
                fr ts ts' ys Hts Hys Htd Heq) as [Hraise _].
    destruct (linregress (range (nrows fr)) ys) as [fit | e] eqn:Hfit;
      [| rewrite (Hraise e eq_refl) in H; discriminate].
    rewrite (plot_and_fit_success fr ts ts' ys fit Hts Hys Htd Heq Hfit) in H.
    injection H as <- <-. exists ts, ts', ys, fit. repeat split; auto.
  - pose proof (plot_and_fit_missing_y fr ts ts' Hts Hys Htd Heq) as Hr.
    rewrite H in Hr. discriminate.
Qed.

Lemma replace_column_same (cols : list (string * list cell)) (k : string)
      (c : list cell) :
  find_column cols k = Some c -> replace_column cols k c = cols.
Proof.
  induction cols as [| [k' c'] cols IH]; simpl; [discriminate |].
  destruct (String.eqb_spec k' k) as [-> | Hne].
  - now intros [= ->].
  - intros H. now rewrite IH.
Qed.

Lemma display_plot_on_keeps_other_columns (fr : DataFrame) :
  nrows (fst (display_plot_on to_datetime linregress fr)) = nrows fr
  /\ (forall k, k <> "timestamp" -> k <> "best_fit_line" ->
        find_column (columns (fst (display_plot_on to_datetime linregress fr))) k
        = find_column (columns fr) k).
Proof.
  set (P := fun f : DataFrame =>
              nrows f = nrows fr
              /\ forall k, k <> "timestamp" -> k <> "best_fit_line" ->
                   find_column (columns f) k = find_column (columns fr) k).
  assert (Hw : forall k0, (k0 = "timestamp" \/ k0 = "best_fit_line") ->
                 forall c, preserves P (write_column k0 c)).
  { intros k0 Hk0 c. apply preserves_write_column.
    intros f f' [Hn Hcols]. unfold set_column.
    destruct (length c =? nrows f); [| discriminate].
    intros [= <-]. split; [exact Hn |]. simpl. intros k H1 H2.
    rewrite find_replace_other; [now apply Hcols |].
    destruct Hk0; congruence. }
  apply (display_plot_on_preserves to_datetime linregress P);
    [apply Hw | apply Hw | split]; auto.
Qed.

(** X16. A second chart on the same tuple changes nothing: if
    [display_plot] returned a figure and converting timestamps that are
    already converted gives them back, then running it again on the frame
    it left returns the same figure and leaves that frame as it is. *)
Theorem second_chart_changes_nothing (fr fr1 : DataFrame) (fig : Figure) :
  df_empty fr = false ->
  display_plot_on to_datetime linregress fr = (fr1, Ok fig) ->
  (forall c c', to_datetime c = Ok c' -> to_datetime c' = Ok c') ->
  display_plot_on to_datetime linregress fr1 = (fr1, Ok fig).
Proof.
  intros Hne H Hidem. unfold display_plot_on in H. rewrite Hne in H.
  simpl in H.
  apply plot_and_fit_success_inv in H
    as (ts & ts' & ys & fit & Hts & Hys & Htd & Hlen & Hfit & -> & ->).
  set (line := map (fitted_point fit) (range (nrows fr))).
  set (fr1 := charted_frame fr ts' line).
  assert (Hts1 : find_column (columns fr1) "timestamp" = Some ts').
  { simpl. rewrite find_replace_other by discriminate.
    apply find_replace_same. }
  assert (Hys1 : find_column (columns fr1) "temp_antarctic" = Some ys).
  { simpl. rewrite !find_replace_other by discriminate. exact Hys. }
  assert (Hbf1 : find_column (columns fr1) "best_fit_line" = Some line)
    by apply find_replace_same.
  assert (Hne1 : df_empty fr1 = false).
  { apply df_empty_false. apply df_empty_false in Hne as [Hn _].
    split; [exact Hn | apply replace_column_not_nil]. }
  unfold display_plot_on. rewrite Hne1. simpl.
  rewrite (plot_and_fit_success fr1 ts' ts' ys fit Hts1 Hys1
             (Hidem ts ts' Htd) Hlen Hfit).
  change (nrows fr1) with (nrows fr). fold line.
  f_equal. unfold charted_frame at 1.
  rewrite (replace_column_same (columns fr1) "timestamp" ts' Hts1).
  rewrite (replace_column_same (columns fr1) "best_fit_line" line Hbf1).
  reflexivity.
Qed.

(** *** The table and the buffer *)

Lemma call_table_matches_buffer (d : Draw) (a : App) :
  well_formed a -> table_matches_buffer a ->
  table_matches_buffer (snd (call_reactive_calc d a)).
Proof.
  intros (Hb & _ & _) Hm. unfold call_reactive_calc.
  destruct (cache a) as [snap0 |] eqn:E; simpl.
  - intros snap Hs. apply Hm. congruence.
  - intros snap [= <-]. simpl.
    set (buffer := deque_append DEQUE_SIZE (deque_items (store a))
                                (new_dictionary_entry d)).
    assert (Hbuf : Forall is_reading buffer).
    { apply Forall_deque_append; [exact Hb |].
      apply new_dictionary_entry_is_reading. }
    assert (Hne : buffer <> []).
    { intros Enil.
      pose proof (last_deque_append DEQUE_SIZE (deque_items (store a))
                    (new_dictionary_entry d)) as Hl.
      fold buffer in Hl. rewrite Enil in Hl.
      specialize (Hl ltac:(unfold DEQUE_SIZE; lia)). discriminate. }
    exists (make_DataFrame buffer). split.
    { unfold deref_frame. simpl. now apply list_lookup_middle. }
    split; [reflexivity |].
    rewrite (make_DataFrame_readings buffer Hbuf Hne).
    unfold buffer_column. simpl. auto.
Qed.

Lemma render_table_matches_buffer (c : consumer) (d : Draw) (a : App) :
  well_formed a -> table_matches_buffer a ->
  table_matches_buffer (snd (render to_datetime linregress c d a)).
Proof.
  intros Hwf Hm. pose proof (call_table_matches_buffer d a Hwf Hm) as H.
  pose proof (call_reactive_calc_cached d a) as Hc.
  unfold render. destruct (call_reactive_calc d a) as [snap a1].
  simpl in H, Hc. destruct c; simpl; trivial.
  destruct (H snap Hc) as (fr & Hfr & Hn & Hta & Htr).
  unfold display_plot. rewrite Hfr.
  destruct (display_plot_on to_datetime linregress fr) as [fr' r] eqn:Ep.
  simpl. intros snap0 Hs. simpl in Hs. rewrite Hc in Hs.
  injection Hs as <-.
  destruct (display_plot_on_keeps_other_columns fr) as [Hn' Hcols].
  rewrite Ep in Hn', Hcols. simpl in Hn', Hcols.
  exists fr'. simpl. split.
  { unfold deref_frame. simpl. apply list_lookup_insert_eq.
    eapply lookup_lt_Some. exact Hfr. }
  split; [congruence |].
  unfold buffer_column in *. simpl.
  split; (rewrite Hcols by discriminate); assumption.
Qed.

Lemma run_table_matches_buffer (tr : list event) (a : App) :
  well_formed a -> table_matches_buffer a ->
  table_matches_buffer (run to_datetime linregress tr a).
Proof.
  revert a. induction tr as [| e tr IH]; intros a Hwf Hm; simpl; [exact Hm |].
  apply IH.
  - now apply step_well_formed.
  - destruct e as [| c d]; simpl.
    + intros snap [=].
    + now apply render_table_matches_buffer.
Qed.

(** X17. The table always shows the buffer as it is: in every state the
    application reaches, the frame of the cached tuple, charted or not, has
    one row per reading in the buffer, and its two temperature columns are
    the buffer's temperatures, oldest first. *)
Theorem table_always_shows_the_buffer (tr : list event) :
  let a := run to_datetime linregress tr initial_app in
  forall snap, cache a = Some snap ->
    exists fr,
      deref_frame (store a) (df snap) = Some fr
      /\ nrows fr = length (deque_items (store a))
      /\ find_column (columns fr) "temp_antarctic"
         = Some (map (fun e => dict_get e "temp_antarctic")
                     (deque_items (store a)))
      /\ find_column (columns fr) "temp_arctic"
         = Some (map (fun e => dict_get e "temp_arctic")
                     (deque_items (store a))).
Proof.
  intros a. apply (run_table_matches_buffer tr initial_app).
  - apply well_formed_initial.
  - intros snap [=].
Qed.

(** X18. The chart plots the buffer: in every state the application
    reaches, a figure that [display_plot] returns has as markers the
    Antarctic temperatures of the buffer, oldest first, against the
    converted timestamps, and a fitted line with one point per reading. *)
Theorem chart_plots_the_buffer (tr : list event) (d : Draw) (fig : Figure) :
  let a := run to_datetime linregress tr initial_app in
  let buffer := deque_items (store (snd (call_reactive_calc d a))) in
  fst (render to_datetime linregress Display_plot d a) = Plot (Ok fig) ->
  exists ts' line,
    fig = chart_figure ts'
            (map (fun e => dict_get e "temp_antarctic") buffer) line
    /\ length ts' = length buffer
    /\ length line = length buffer.
Proof.
  intros a buffer Hfig.
  destruct (reachable_invariants to_datetime linregress tr) as [Hwf Hok].
  fold a in Hwf, Hok.
  assert (Hm : table_matches_buffer a).
  { apply run_table_matches_buffer;
      [apply well_formed_initial | intros snap [=]]. }
  pose proof (call_table_matches_buffer d a Hwf Hm) as Hm1.
  destruct (Hm1 _ (call_reactive_calc_cached d a))
    as (fr & Hfr & Hn & Hta & _).
  fold buffer in Hn. unfold buffer_column in Hta. fold buffer in Hta.
  assert (Hne : df_empty fr = false).
  { pose proof (call_reactive_calc_well_formed d a Hwf) as (_ & Hf & _).
    unfold deref_frame in Hfr. eapply Forall_lookup_1 in Hf; eauto. }
  rewrite (render_plot_output to_datetime linregress d a fr Hfr Hne) in Hfig.
  injection Hfig as Hfig.
  destruct (plot_and_fit to_datetime linregress fr) as [fr' r] eqn:Ep.
  simpl in Hfig. subst r.
  apply plot_and_fit_success_inv in Ep
    as (ts & ts' & ys & fit & Hts & Hys & Htd & Hlen & Hfit & _ & ->).
  rewrite Hta in Hys. injection Hys as <-.
  eexists ts', _. split; [reflexivity |].
  split; [congruence |].
  rewrite length_map, length_range. exact Hn.
Qed.

End ChartComposition.

Lemma sample_to_datetime_cell_again (x y : cell) :
  Sample.to_datetime_cell x = Ok y -> Sample.to_datetime_cell y = Ok y.
Proof.
  destruct x as [[f | t | t] |]; simpl; try discriminate.
  - destruct (Sample.parse_timestamp t); [| discriminate].
    now intros [= <-].
  - now intros [= <-].
  - now intros [= <-].
Qed.

Lemma sample_to_datetime_again (c c' : list cell) :
  Sample.to_datetime c = Ok c' -> Sample.to_datetime c' = Ok c'.
Proof.
  revert c'. induction c as [| x c IH]; simpl; intros c'.
  - now intros [= <-].
  - destruct (Sample.to_datetime_cell x) as [y |] eqn:Ex; [| discriminate].
    simpl. destruct (Sample.to_datetime c) as [ys |]; [| discriminate].
    simpl. intros [= <-]. simpl.
    rewrite (sample_to_datetime_cell_again x y Ex). simpl.
    now rewrite (IH ys eq_refl).
Qed.

Lemma second_chart_changes_nothing_witness :
  display_plot_on Sample.to_datetime Sample.least_squares Sample.charted2
  = (Sample.charted2, Ok Sample.fig2).
Proof.
  apply (second_chart_changes_nothing Sample.to_datetime Sample.least_squares
           Sample.frame2 Sample.charted2 Sample.fig2).
  - vm_compute. reflexivity.
  - vm_compute. reflexivity.
  - exact sample_to_datetime_again.
Defined.

Lemma table_always_shows_the_buffer_witness :
  let a := run Sample.to_datetime Sample.least_squares
               [Render Display_plot Sample.draw1] initial_app in
  exists fr,
    deref_frame (store a) (df Sample.snap1) = Some fr
    /\ nrows fr = length (deque_items (store a))
    /\ find_column (columns fr) "temp_antarctic"
       = Some (map (fun e => dict_get e "temp_antarctic")
                   (deque_items (store a)))
    /\ find_column (columns fr) "temp_arctic"
       = Some (map (fun e => dict_get e "temp_arctic")
                   (deque_items (store a))).
Proof.
  apply (table_always_shows_the_buffer Sample.to_datetime Sample.least_squares
           [Render Display_plot Sample.draw1] Sample.snap1).
  vm_compute. reflexivity.
Defined.

Lemma chart_plots_the_buffer_witness :
  let buffer :=
    deque_items (store (snd (call_reactive_calc Sample.draw1 initial_app))) in
  exists ts' line,
    Sample.fig1
    = chart_figure ts'
        (map (fun e => dict_get e "temp_antarctic") buffer) line
    /\ length ts' = length buffer
    /\ length line = length buffer.
Proof.
  apply (chart_plots_the_buffer Sample.to_datetime Sample.least_squares
           [] Sample.draw1 Sample.fig1).
  vm_compute. reflexivity.
Defined.

(** ** The cached latest entry *)

Section LatestEntry.

Variable to_datetime : list cell -> result (list cell).
Variable linregress : list Z -> list cell -> result LinregressResult.

Lemma call_latest_is_tail (d : Draw) (a : App) :
  (forall snap, cache a = Some snap ->
     last (deque_items (store a)) = Some (latest_dictionary_entry snap)) ->
  forall snap, cache (snd (call_reactive_calc d a)) = Some snap ->
    last (deque_items (store (snd (call_reactive_calc d a))))
    = Some (latest_dictionary_entry snap).
Proof.
  intros H. unfold call_reactive_calc.
  destruct (cache a) as [snap0 |] eqn:E; simpl.
  - intros snap Hs. apply H. congruence.
  - intros snap [= <-]. simpl.
    apply last_deque_append. unfold DEQUE_SIZE. lia.
Qed.

Lemma run_latest_is_tail (tr : list event) (a : App) :
  (forall snap, cache a = Some snap ->
     last (deque_items (store a)) = Some (latest_dictionary_entry snap)) ->
  forall snap, cache (run to_datetime linregress tr a) = Some snap ->
    last (deque_items (store (run to_datetime linregress tr a)))
    = Some (latest_dictionary_entry snap).
Proof.
  revert a. induction tr as [| e tr IH]; intros a H; simpl; [exact H |].
  apply IH. destruct e as [| c d]; simpl.
  - intros snap [=].
  - destruct (render_after_call to_datetime linregress c d a)
      as (Hd & _ & Hc).
    rewrite Hd, Hc. now apply call_latest_is_tail.
Qed.

(** X19. What the text boxes read is the newest reading of the buffer: in
    every state the application reaches, the latest entry of the cached
    tuple is the last element of the buffer, whatever renders and charts
    happened since it was computed. *)
Theorem cached_latest_is_buffer_tail (tr : list event) (snap : Snapshot) :
  let a := run to_datetime linregress tr initial_app in
  cache a = Some snap ->
  last (deque_items (store a)) = Some (latest_dictionary_entry snap)
  /\ is_reading (latest_dictionary_entry snap).
Proof.
  intros a Hc.
  assert (Hl : last (deque_items (store a))
               = Some (latest_dictionary_entry snap)).
  { apply (run_latest_is_tail tr initial_app); [intros s [=] | exact Hc]. }
  split; [exact Hl |].
  destruct (reachable_invariants to_datetime linregress tr) as [(Hb & _) _].
  fold a in Hb. rewrite last_lookup in Hl.
  eapply Forall_lookup_1 in Hb; eauto.
Qed.

End LatestEntry.

Lemma cached_latest_is_buffer_tail_witness :
  let a := run Sample.to_datetime Sample.least_squares
               [Render Display_plot Sample.draw1;
                Render Display_df Sample.draw2] initial_app in
  last (deque_items (store a)) = Some (latest_dictionary_entry Sample.snap1)
  /\ is_reading (latest_dictionary_entry Sample.snap1).
Proof.
  apply (cached_latest_is_buffer_tail Sample.to_datetime Sample.least_squares
           [Render Display_plot Sample.draw1; Render Display_df Sample.draw2]
           Sample.snap1).
  vm_compute. reflexivity.
Defined.
